(** * Playback coordinator of the Discord music bot

    A shallow embedding of [backend/discord_music_bot/music.py]
    ([MusicManager], [Track], [GuildMusicState]), of the pause / skip / stop
    routes of [backend/discord_music_bot/api.py] and of the slash commands of
    [discord_music_bot/bot.py].  The slash commands import [MusicManager] from
    their own package; the module modelled for them is the one under
    [backend/], which defines every method they call.

    Python objects that the program mutates (the manager's [_states]
    dictionary, the guild's voice client, the event loop's task list) live in
    one [World] record that every operation threads explicitly.  Python
    exceptions are values of [PyExn]; a computation returns an [Outcome]
    together with the world it leaves behind, so the writes made before a
    [raise] stay visible, as they do in Python.

    Coroutines are run to completion one after another: the model has no
    interleaving at an [await].  Everything that belongs to discord.py,
    yt-dlp, ffmpeg or the network is read from the oracle fields of [Env]. *)

From Stdlib Require Import ZArith List String Ascii Bool Lia.
From Stdlib Require Import Floats Uint63.
From stdpp Require Import base option gmap.
From stdpp Require Import strings.
Import ListNotations.

Set Warnings "-register-all".

Local Open Scope string_scope.
Local Open Scope Z_scope.

(** ** Strings *)

Module PyStr.

(** The line feed written [\n] in the Python source. *)
Definition nl : string := String (ascii_of_nat 10) EmptyString.

(** [str.lower] on the ASCII range.  Messages of yt-dlp are taken to be
    ASCII text; code points outside it are left as they are. *)
Definition lower_ascii (c : ascii) : ascii :=
  let n := nat_of_ascii c in
  if (Nat.leb 65 n && Nat.leb n 90)%bool then ascii_of_nat (n + 32) else c.

Fixpoint lower (s : string) : string :=
  match s with
  | EmptyString => EmptyString
  | String c rest => String (lower_ascii c) (lower rest)
  end.

Fixpoint starts_with (p s : string) : bool :=
  match p, s with
  | EmptyString, _ => true
  | String a p', String b s' => if Ascii.eqb a b then starts_with p' s' else false
  | String _ _, EmptyString => false
  end.

(** [needle in hay] *)
Fixpoint contains (needle hay : string) : bool :=
  if starts_with needle hay then true
  else match hay with
       | EmptyString => false
       | String _ rest => contains needle rest
       end.

(** Truthiness of a [str]: the empty string is falsy. *)
Definition truthy (s : string) : bool :=
  match s with EmptyString => false | String _ _ => true end.

(** [str(n)] for an [int]. *)
Definition digit (d : Z) : ascii := ascii_of_nat (48 + Z.to_nat d).

Fixpoint digits (fuel : nat) (n : Z) (acc : string) : string :=
  match fuel with
  | O => acc
  | S fuel' =>
      let acc' := String (digit (n mod 10)) acc in
      if n / 10 =? 0 then acc' else digits fuel' (n / 10) acc'
  end.

Definition of_int (n : Z) : string :=
  if n <? 0 then "-" ++ digits (S (Z.to_nat (Z.log2 (- n)))) (- n) ""
  else digits (S (Z.to_nat (Z.log2 n))) n "".

(** [sep.join(xs)] *)
Fixpoint join (sep : string) (xs : list string) : string :=
  match xs with
  | [] => ""
  | [x] => x
  | x :: rest => x ++ sep ++ join sep rest
  end.

End PyStr.

(** ** Exceptions and outcomes *)

(** The exception classes the program raises or catches.  All of them derive
    from [Exception]; [DiscordException] stands for the class and its
    subclasses ([ClientException], [HTTPException] of discord.py, ...). *)
Inductive PyExn : Type :=
| RuntimeError (msg : string)
| HTTPException (status_code : Z) (detail : string)
| DiscordException (msg : string)
| YoutubeDLError (msg : string)
| ValueError (msg : string)
| OverflowError (msg : string)
| OtherException (msg : string).

(** [str(exc)] *)
Definition exn_str (e : PyExn) : string :=
  match e with
  | RuntimeError m | DiscordException m | YoutubeDLError m
  | ValueError m | OverflowError m | OtherException m => m
  | HTTPException c d => PyStr.of_int c ++ ": " ++ d
  end.

Definition is_discord_exception (e : PyExn) : bool :=
  match e with DiscordException _ => true | _ => false end.

Definition is_runtime_error (e : PyExn) : bool :=
  match e with RuntimeError _ => true | _ => false end.

Inductive Outcome (A : Type) : Type :=
| Returned (a : A)
| Raised (e : PyExn).
Arguments Returned {A} a.
Arguments Raised {A} e.

(** ** Tracks and what yt-dlp hands back *)

Record Track : Type := mkTrack {
  title : string;
  webpage_url : string;
  stream_url : string;
  requested_by : string
}.

(** The part of Python's value universe that [extract_track] inspects. *)
Inductive PyVal : Type :=
| PyNone
| PyStrV (s : string)
| PyIntV (n : Z)
| PyList (items : list PyVal)
| PyDict (fields : list (string * PyVal))
| PyOther.

(** [d.get(key)] on the fields of a dict; [None] when the key is absent. *)
Fixpoint dict_get (key : string) (fields : list (string * PyVal)) : option PyVal :=
  match fields with
  | [] => None
  | (k, v) :: rest => if String.eqb k key then Some v else dict_get key rest
  end.

Definition is_dict (v : PyVal) : bool :=
  match v with PyDict _ => true | _ => false end.

(** [next((entry for entry in entries if isinstance(entry, dict)), None)] *)
Fixpoint first_dict (entries : list PyVal) : option PyVal :=
  match entries with
  | [] => None
  | e :: rest => if is_dict e then Some e else first_dict rest
  end.

(** [value if isinstance(value, str) and value else default] *)
Definition str_or (value : option PyVal) (default : string) : string :=
  match value with
  | Some (PyStrV s) => if PyStr.truthy s then s else default
  | _ => default
  end.

(** What [ydl.extract_info(query, download=False)] (and the construction of
    the [YoutubeDL] object around it) does for a query. *)
Inductive YdlOutcome : Type :=
| YdlReturns (info : PyVal)
| YdlRaisesYoutubeDLError (msg : string)
| YdlRaisesOther (msg : string).

Definition msg_challenge : string :=
  "YouTube challenge solving failed. Ensure a JS runtime (deno/node) is installed and accessible.".
Definition msg_extraction_failed : string :=
  "YouTube extraction failed for that query. Try another URL/search term.".
Definition msg_unexpected_youtube : string := "Unexpected error while talking to YouTube.".
Definition msg_response_shape : string := "Unexpected YouTube response shape.".
Definition msg_no_playable : string := "No playable result found for that query.".
Definition msg_metadata_shape : string := "Unexpected YouTube metadata shape.".
Definition msg_no_stream_url : string := "Could not extract an audio stream URL.".

(** The [try] block of [extract_track]: the metadata, or the [RuntimeError]
    the handlers turn the failure into. *)
Definition ydl_info (ydl : YdlOutcome) : Outcome PyVal :=
  match ydl with
  | YdlReturns info => Returned info
  | YdlRaisesYoutubeDLError m =>
      let message := PyStr.lower m in
      if (PyStr.contains "javascript runtime" message
          || PyStr.contains "challenge" message
          || PyStr.contains "signature" message)%bool
      then Raised (RuntimeError msg_challenge)
      else Raised (RuntimeError msg_extraction_failed)
  | YdlRaisesOther _ => Raised (RuntimeError msg_unexpected_youtube)
  end.

(** The [if isinstance(info, dict) and "entries" in info] block. *)
Definition resolve_entries (info : PyVal) : Outcome PyVal :=
  match info with
  | PyDict fields =>
      match dict_get "entries" fields with
      | Some entries =>
          match entries with
          | PyList items =>
              match first_dict items with
              | Some entry => Returned entry
              | None => Raised (RuntimeError msg_no_playable)
              end
          | _ => Raised (RuntimeError msg_response_shape)
          end
      | None => Returned info
      end
  | _ => Returned info
  end.

(** From [if not isinstance(info, dict)] to the [return Track(...)]. *)
Definition track_of_info (info : PyVal) (query requester : string) : Outcome Track :=
  match info with
  | PyDict fields =>
      let title := str_or (dict_get "title" fields) "Unknown title" in
      let webpage_url := str_or (dict_get "webpage_url" fields) query in
      match dict_get "url" fields with
      | Some (PyStrV stream_url_value) =>
          if PyStr.truthy stream_url_value
          then Returned (mkTrack title webpage_url stream_url_value requester)
          else Raised (RuntimeError msg_no_stream_url)
      | _ => Raised (RuntimeError msg_no_stream_url)
      end
  | _ => Raised (RuntimeError msg_metadata_shape)
  end.

(** [MusicManager.extract_track], given what yt-dlp does for the query. *)
Definition extract_track (ydl : YdlOutcome) (query requester : string) : Outcome Track :=
  match ydl_info ydl with
  | Raised e => Raised e
  | Returned info =>
      match resolve_entries info with
      | Raised e => Raised e
      | Returned info' => track_of_info info' query requester
      end
  end.

(** ** Session state *)

(** [GuildMusicState].  The [asyncio.Lock] has no field of its own: a
    critical section never awaits, so in a run without interleaving the lock
    is free whenever it is taken; taking and releasing it are recorded in the
    trace ([Acquire], [Release]). *)
Record GuildMusicState : Type := mkState {
  queue : list Track;
  now_playing : option Track;
  volume : float
}.

Definition fresh_state : GuildMusicState := mkState [] None 1%float.

(** ** The voice connection (discord.py) *)

(** The [AudioPlayer] thread behind [vc._player], while it is live (see
    [finished] below for the rest of its time): the source it reads, the
    volume of its [PCMVolumeTransformer], whether it is paused, and the
    arguments its [after] callback closes over. *)
Record Player : Type := mkPlayer {
  pl_stream_url : string;
  pl_volume : float;
  pl_paused : bool;
  pl_after : Z * option Z
}.

Record VoiceClient : Type := mkVoice {
  vc_connected : bool;
  vc_channel : option Z;
  vc_player : option Player
}.

(** [guild.voice_client]: absent, a [VoiceProtocol] that is not a
    [discord.VoiceClient], or a [discord.VoiceClient]. *)
Inductive VoiceProtocol : Type :=
| NoVoice
| OtherProtocol
| Voice (vc : VoiceClient).

Record Guild : Type := mkGuild { voice_client : VoiceProtocol }.

(** [vc.is_playing()] and [vc.is_paused()].  discord.py answers both from the
    player: it is playing while its resume flag is set and paused while that
    flag is cleared ([pause()] clears it), so a paused player is not playing,
    and without a player both are false. *)
Definition is_playing (vc : VoiceClient) : bool :=
  match vc_player vc with Some p => negb (pl_paused p) | None => false end.

Definition is_paused (vc : VoiceClient) : bool :=
  match vc_player vc with Some p => pl_paused p | None => false end.

(** ** The event loop, the trace and the environment *)

Inductive Task : Type :=
| PlayNextTask (guild_id : Z) (text_channel_id : option Z).

Inductive Callback : Type :=
| SchedulePlayNext (guild_id : Z) (text_channel_id : option Z).

(** What an operation does besides changing the world's fields, in program
    order. *)
Inductive Event : Type :=
| Log (msg : string)
| Acquire (guild_id : Z)
| Release (guild_id : Z)
| QueueAppend (guild_id : Z) (track : Track)
| QueuePop (guild_id : Z) (track : Track)
| QueueClear (guild_id : Z)
| NowPlayingSet (guild_id : Z) (value : option Track)
| VolumeSet (guild_id : Z) (value : float)
| VcPlay (guild_id : Z) (url : string) (vol : float)
| VcPause (guild_id : Z)
| VcResume (guild_id : Z)
| VcStop (guild_id : Z)
| VcConnect (guild_id : Z) (channel_id : Z)
| CreateTask (task : Task)
| CallSoonThreadsafe (cb : Callback)
| ChannelSend (channel_id : Z) (text : string)
| Defer
| Followup (text : string).

(** The collaborators the program calls but does not contain. *)
Record Env : Type := mkEnv {
  (** [ydl.extract_info(query, download=False)] *)
  ydl : string -> YdlOutcome;
  (** building [FFmpegPCMAudio] and [PCMVolumeTransformer] for a stream URL:
      the exception raised, if any *)
  ffmpeg_error : string -> option PyExn;
  (** what [vc.play] raises in a guild besides its own two checks *)
  encoder_error : Z -> option PyExn;
  (** [bot.get_channel(id)]: the cached channel, [true] when [Messageable] *)
  get_channel : Z -> option bool;
  (** [await bot.fetch_channel(id)] *)
  fetch_channel : Z -> Outcome bool;
  (** [await channel.send(...)]: the exception raised, if any *)
  channel_send : Z -> option PyExn;
  (** [await user_channel.connect()]: [true] for a [discord.VoiceClient] *)
  connect : Z -> Outcome bool;
  (** [channel.name] *)
  channel_name : Z -> string
}.

Record World : Type := mkWorld {
  env : Env;
  (** [MusicManager._states] *)
  states : gmap Z GuildMusicState;
  (** the guilds [bot.get_guild] knows *)
  guilds : gmap Z Guild;
  (** whether the event loop is running (neither stopped nor closed) *)
  loop_running : bool;
  (** tasks made by [asyncio.create_task] that have not run yet *)
  tasks : list Task;
  (** callbacks handed over by [call_soon_threadsafe] that have not run yet *)
  handoff : list Callback;
  trace : list Event;
  (** the guilds whose voice client holds the player of a render that ended
      by itself.  discord.py keeps such a player in [vc._player], where
      [vc.source] still finds its source, until [stop] is called on the voice
      client; [vc_player] holds the player only while it is live.  A mark
      that is older than the live player does no harm: the live player is
      looked at first, its own end renews the mark and [stop] removes it. *)
  finished : list Z
}.

Definition with_states (f : gmap Z GuildMusicState -> gmap Z GuildMusicState) (w : World) : World :=
  mkWorld (env w) (f (states w)) (guilds w) (loop_running w) (tasks w) (handoff w) (trace w)
    (finished w).

Definition with_guilds (f : gmap Z Guild -> gmap Z Guild) (w : World) : World :=
  mkWorld (env w) (states w) (f (guilds w)) (loop_running w) (tasks w) (handoff w) (trace w)
    (finished w).

Definition with_tasks (f : list Task -> list Task) (w : World) : World :=
  mkWorld (env w) (states w) (guilds w) (loop_running w) (f (tasks w)) (handoff w) (trace w)
    (finished w).

Definition with_handoff (f : list Callback -> list Callback) (w : World) : World :=
  mkWorld (env w) (states w) (guilds w) (loop_running w) (tasks w) (f (handoff w)) (trace w)
    (finished w).

Definition with_trace (f : list Event -> list Event) (w : World) : World :=
  mkWorld (env w) (states w) (guilds w) (loop_running w) (tasks w) (handoff w) (f (trace w))
    (finished w).

Definition with_finished (f : list Z -> list Z) (w : World) : World :=
  mkWorld (env w) (states w) (guilds w) (loop_running w) (tasks w) (handoff w) (trace w)
    (f (finished w)).

(** The session a guild id denotes: its registry entry, or the state
    [get_state] would create for it. *)
Definition state_of (w : World) (guild_id : Z) : GuildMusicState :=
  default fresh_state (states w !! guild_id).

Definition guild_voice (w : World) (guild_id : Z) : VoiceProtocol :=
  match guilds w !! guild_id with
  | Some g => voice_client g
  | None => NoVoice
  end.

(** ** Computations *)

(** A Python call: it ends by returning or by raising, and leaves a world. *)
Definition Py (A : Type) : Type := World -> Outcome A * World.

#[export] Instance py_ret : MRet Py := fun A a w => (Returned a, w).

#[export] Instance py_bind : MBind Py := fun A B k m w =>
  match m w with
  | (Returned a, w') => k a w'
  | (Raised e, w') => (Raised e, w')
  end.

Definition raise {A : Type} (e : PyExn) : Py A := fun w => (Raised e, w).

Definition gets {A : Type} (f : World -> A) : Py A := fun w => (Returned (f w), w).

Definition update (f : World -> World) : Py unit := fun w => (Returned tt, f w).

(** [try: body / except <classes> as exc: handler exc] *)
Definition try_except {A : Type} (body : Py A) (caught : PyExn -> bool)
    (handler : PyExn -> Py A) : Py A := fun w =>
  match body w with
  | (Returned a, w') => (Returned a, w')
  | (Raised e, w') => if caught e then handler e w' else (Raised e, w')
  end.

(** [try: body / except Exception as exc: ...], as a value the continuation
    inspects: the way to write a handler that ends in [return]. *)
Definition attempt {A : Type} (body : Py A) : Py (Outcome A) := fun w =>
  match body w with
  | (r, w') => (Returned r, w')
  end.

(** [try: body / finally: cleanup] *)
Definition try_finally {A : Type} (body : Py A) (cleanup : Py unit) : Py A := fun w =>
  match body w with
  | (r, w') =>
      match cleanup w' with
      | (Returned _, w'') => (r, w'')
      | (Raised e, w'') => (Raised e, w'')
      end
  end.

Definition any_exception (_ : PyExn) : bool := true.

Definition emit (ev : Event) : Py unit := update (with_trace (fun t => (t ++ [ev])%list)).

(** [logger.error(msg, ...)] *)
Definition log_error (msg : string) : Py unit := emit (Log msg).

(** [async with state.lock: body] *)
Definition with_lock {A : Type} (guild_id : Z) (body : Py A) : Py A :=
  emit (Acquire guild_id);;
  try_finally body (emit (Release guild_id)).

(** ** Floats and the volume *)

(** [float(n)] for an [int] that a binary64 float holds exactly. *)
Definition float_of_int (n : Z) : float := PrimFloat.of_uint63 (Uint63.of_Z n).

(** [a / b] on two [int]s.  Python rounds the exact quotient once; for
    operands a float holds exactly (the program only divides a value of
    [0..200] by [100]) that is the IEEE division of the two floats. *)
Definition int_true_div (a b : Z) : float :=
  PrimFloat.div (float_of_int a) (float_of_int b).

(** The integer nearest to [m * 2^e], ties to the even one. *)
Definition round_half_even (m e : Z) : Z :=
  if 0 <=? e then m * 2 ^ e
  else
    let d := 2 ^ (- e) in
    let q := m / d in
    let r := m mod d in
    if 2 * r <? d then q
    else if d <? 2 * r then q + 1
    else if Z.even q then q else q + 1.

(** [int(round(x))] for a float [x]. *)
Definition py_round (x : float) : Outcome Z :=
  match Prim2SF x with
  | S754_zero _ => Returned 0
  | S754_finite s m e =>
      let v := round_half_even (Z.pos m) e in
      Returned (if s then - v else v)
  | S754_infinity _ => Raised (OverflowError "cannot convert float infinity to integer")
  | S754_nan => Raised (ValueError "cannot convert float NaN to integer")
  end.

#[global] Arguments float_of_int : simpl never.
#[global] Arguments int_true_div : simpl never.
#[global] Arguments py_round : simpl never.
#[global] Arguments PyStr.of_int : simpl never.
#[global] Arguments PyStr.join : simpl never.

(** ** MusicManager: the registry *)

(** [MusicManager.get_state]: the entry is created on first use. *)
Definition get_state (guild_id : Z) : Py GuildMusicState := fun w =>
  match states w !! guild_id with
  | Some st => (Returned st, w)
  | None => (Returned fresh_state, with_states (insert guild_id fresh_state) w)
  end.

(** A write through the reference [get_state] returned. *)
Definition modify_state (guild_id : Z) (f : GuildMusicState -> GuildMusicState) : Py unit :=
  update (fun w => with_states (insert guild_id (f (state_of w guild_id))) w).

(** [state.now_playing = value] *)
Definition set_now_playing (guild_id : Z) (value : option Track) : Py unit :=
  modify_state guild_id (fun st => mkState (queue st) value (volume st));;
  emit (NowPlayingSet guild_id value).

(** [state.volume = value] *)
Definition set_volume (guild_id : Z) (value : float) : Py unit :=
  modify_state guild_id (fun st => mkState (queue st) (now_playing st) value);;
  emit (VolumeSet guild_id value).

(** [state.queue.append(track)] *)
Definition queue_append (guild_id : Z) (track : Track) : Py unit :=
  modify_state guild_id
    (fun st => mkState (queue st ++ [track])%list (now_playing st) (volume st));;
  emit (QueueAppend guild_id track).

(** [state.queue.clear()] *)
Definition queue_clear (guild_id : Z) : Py unit :=
  modify_state guild_id (fun st => mkState [] (now_playing st) (volume st));;
  emit (QueueClear guild_id).

(** [track = state.queue.pop(0)], once the queue is known to be
    [track :: rest]. *)
Definition queue_pop_head (guild_id : Z) (track : Track) (rest : list Track) : Py unit :=
  modify_state guild_id (fun st => mkState rest (now_playing st) (volume st));;
  emit (QueuePop guild_id track).

(** [MusicManager.get_volume_percent] *)
Definition get_volume_percent (guild_id : Z) : Py Z :=
  state ← get_state guild_id;
  match py_round (PrimFloat.mul (volume state) (float_of_int 100)) with
  | Returned n => mret n
  | Raised e => raise e
  end.

(** [MusicManager.set_volume_percent] *)
Definition set_volume_percent (guild_id percent : Z) : Py Z :=
  _ ← get_state guild_id;
  let clamped := Z.max 0 (Z.min 200 percent) in
  set_volume guild_id (int_true_div clamped 100);;
  mret clamped.

(** ** The event loop *)

(** [asyncio.create_task(coro)]: a [RuntimeError] without a running loop. *)
Definition create_task (t : Task) : Py unit :=
  running ← gets loop_running;
  if running : bool
  then update (with_tasks (fun ts => (ts ++ [t])%list));; emit (CreateTask t)
  else raise (RuntimeError "no running event loop").

(** [loop.call_soon_threadsafe(callback, *args)]: a [RuntimeError] once the
    loop is closed. *)
Definition call_soon_threadsafe (cb : Callback) : Py unit :=
  running ← gets loop_running;
  if running : bool
  then update (with_handoff (fun cbs => (cbs ++ [cb])%list));; emit (CallSoonThreadsafe cb)
  else raise (RuntimeError "Event loop is closed").

(** [MusicManager._schedule_play_next].  The done-callback
    [_log_task_exception] is applied when the task is run ([run_task]). *)
Definition _schedule_play_next (guild_id : Z) (text_channel_id : option Z) : Py unit :=
  try_except
    (create_task (PlayNextTask guild_id text_channel_id))
    is_runtime_error
    (fun _ => log_error "Failed to schedule next track playback.").

(** The closure [after_play] that [play_next] hands to [vc.play], for the
    [guild_id] and [text_channel_id] it captured. *)
Definition after_play (guild_id : Z) (text_channel_id : option Z) (err : option PyExn) : Py unit :=
  match err with
  | Some _ => log_error ("Playback error (guild=" ++ PyStr.of_int guild_id ++ ").")
  | None => mret tt
  end;;
  call_soon_threadsafe (SchedulePlayNext guild_id text_channel_id).

(** ** The voice client's methods (discord.py) *)

Definition update_voice (guild_id : Z) (f : VoiceClient -> VoiceClient) : Py unit :=
  update (with_guilds (alter (fun g =>
    match voice_client g with
    | Voice vc => mkGuild (Voice (f vc))
    | _ => g
    end) guild_id)).

Definition set_player (p : option Player) (vc : VoiceClient) : VoiceClient :=
  mkVoice (vc_connected vc) (vc_channel vc) p.

Definition the_player (w : World) (guild_id : Z) : option Player :=
  match guild_voice w guild_id with
  | Voice vc => vc_player vc
  | _ => None
  end.

(** The player thread ending: it calls [after(error)] and logs whatever the
    callback raises instead of passing it on. *)
Definition call_after (p : Player) (err : option PyExn) : Py unit :=
  try_except
    (after_play (fst (pl_after p)) (snd (pl_after p)) err)
    any_exception
    (fun _ => log_error "Calling the after function failed.").

(** [vc.pause()] *)
Definition vc_pause (guild_id : Z) : Py unit :=
  emit (VcPause guild_id);;
  p ← gets (fun w => the_player w guild_id);
  match p with
  | Some p => update_voice guild_id
      (set_player (Some (mkPlayer (pl_stream_url p) (pl_volume p) true (pl_after p))))
  | None => mret tt
  end.

(** [vc.resume()] *)
Definition vc_resume (guild_id : Z) : Py unit :=
  emit (VcResume guild_id);;
  p ← gets (fun w => the_player w guild_id);
  match p with
  | Some p => update_voice guild_id
      (set_player (Some (mkPlayer (pl_stream_url p) (pl_volume p) false (pl_after p))))
  | None => mret tt
  end.

(** [vc.stop()]: the player, if there is one, is ended and dropped; ending
    a live one makes its thread call [after(None)], which the model runs on
    the spot, and a finished one is forgotten. *)
Definition vc_stop (guild_id : Z) : Py unit :=
  emit (VcStop guild_id);;
  update (with_finished (List.filter (fun g => negb (g =? guild_id))));;
  p ← gets (fun w => the_player w guild_id);
  match p with
  | Some p => update_voice guild_id (set_player None);; call_after p None
  | None => mret tt
  end.

(** [vc.play(source, after=after_play)] *)
Definition vc_play (guild_id : Z) (url : string) (vol : float) (after : Z * option Z) : Py unit :=
  voice ← gets (fun w => guild_voice w guild_id);
  match voice with
  | Voice vc =>
      if negb (vc_connected vc) then raise (DiscordException "Not connected to voice.")
      else if is_playing vc then raise (DiscordException "Already playing audio.")
      else
        e ← gets (fun w => encoder_error (env w) guild_id);
        match e with
        | Some exc => raise exc
        | None =>
            update_voice guild_id (set_player (Some (mkPlayer url vol false after)));;
            emit (VcPlay guild_id url vol)
        end
  | _ => raise (DiscordException "Not connected to voice.")
  end.

(** ** MusicManager: playback *)

Definition now_playing_text (track : Track) : string :=
  "Now playing: **" ++ title track ++ "** (requested by " ++ requested_by track ++ ")"
    ++ PyStr.nl ++ webpage_url track.

(** [MusicManager.send_now_playing_message] *)
Definition send_now_playing_message (text_channel_id : option Z) (track : Track) : Py unit :=
  match text_channel_id with
  | None => mret tt
  | Some cid =>
      try_except
        (cached ← gets (fun w => get_channel (env w) cid);
         messageable ←
           match cached with
           | Some m => mret m
           | None =>
               fetched ← gets (fun w => fetch_channel (env w) cid);
               match fetched with
               | Returned m => mret m
               | Raised e => raise e
               end
           end;
         if messageable : bool
         then
           failure ← gets (fun w => channel_send (env w) cid);
           match failure with
           | Some e => raise e
           | None => emit (ChannelSend cid (now_playing_text track))
           end
         else mret tt)
        is_discord_exception
        (fun _ => log_error
           ("Failed to post now-playing message for channel " ++ PyStr.of_int cid ++ "."))
  end.

(** Building the [PCMVolumeTransformer] over an [FFmpegPCMAudio] source. *)
Definition make_source (guild_id : Z) (track : Track) : Py (string * float) :=
  failure ← gets (fun w => ffmpeg_error (env w) (stream_url track));
  match failure with
  | Some e => raise e
  | None =>
      vol ← gets (fun w => volume (state_of w guild_id));
      mret (stream_url track, vol)
  end.

(** The critical section of [play_next]: the track to render, if one was
    taken from the queue.  [vc] is the voice client [play_next] has just
    read; nothing runs between that read and this section. *)
Definition take_next (guild_id : Z) (vc : VoiceClient) : Py (option Track) :=
  with_lock guild_id
    (if (is_playing vc || is_paused vc)%bool then mret None
     else
       q ← gets (fun w => queue (state_of w guild_id));
       match q with
       | [] => set_now_playing guild_id None;; mret None
       | track :: rest =>
           queue_pop_head guild_id track rest;;
           set_now_playing guild_id (Some track);;
           mret (Some track)
       end).

(** [MusicManager.play_next] *)
Definition play_next (guild_id : Z) (text_channel_id : option Z) : Py unit :=
  _ ← get_state guild_id;
  try_except
    (voice ← gets (fun w => guild_voice w guild_id);
     match voice with
     | NoVoice => set_now_playing guild_id None
     | OtherProtocol => set_now_playing guild_id None
     | Voice vc =>
         taken ← take_next guild_id vc;
         match taken with
         | None => mret tt
         | Some track =>
             source ← attempt (make_source guild_id track);
             match source with
             | Raised _ =>
                 log_error ("Failed to create ffmpeg source for '" ++ title track ++ "'.");;
                 _schedule_play_next guild_id text_channel_id
             | Returned (url, vol) =>
                 started ← attempt (vc_play guild_id url vol (guild_id, text_channel_id));
                 match started with
                 | Raised _ =>
                     log_error "Discord voice client failed to start playback.";;
                     _schedule_play_next guild_id text_channel_id
                 | Returned _ => send_now_playing_message text_channel_id track
                 end
             end
         end
     end)
    any_exception
    (fun _ =>
       set_now_playing guild_id None;;
       log_error "Unexpected error in play_next.").

(** [MusicManager._log_task_exception], on the outcome of a finished task. *)
Definition _log_task_exception (result : Outcome unit) : Py unit :=
  match result with
  | Raised _ => log_error "Background playback task failed."
  | Returned _ => mret tt
  end.

(** The loop running a task that [create_task] queued. *)
Definition run_task (t : Task) : Py unit :=
  match t with
  | PlayNextTask guild_id text_channel_id =>
      result ← attempt (play_next guild_id text_channel_id);
      _log_task_exception result
  end.

(** The loop running a callback that [call_soon_threadsafe] queued. *)
Definition run_callback (cb : Callback) : Py unit :=
  match cb with
  | SchedulePlayNext guild_id text_channel_id => _schedule_play_next guild_id text_channel_id
  end.

(** ** The HTTP routes (api.py) *)

Module Api.

Definition _ensure_guild (guild_id : Z) : Py Guild :=
  g ← gets (fun w => guilds w !! guild_id);
  match g with
  | Some g => mret g
  | None => raise (HTTPException 404
              ("Guild " ++ PyStr.of_int guild_id ++ " is not available to the bot."))
  end.

(** [_connected_voice_client(guild)]; the guild object is named by its id
    and read when the function is called. *)
Definition _connected_voice_client (guild_id : Z) : Py (option VoiceClient) :=
  voice ← gets (fun w => guild_voice w guild_id);
  match voice with
  | Voice vc => if vc_connected vc then mret (Some vc) else mret None
  | _ => mret None
  end.

Definition not_connected : PyExn :=
  HTTPException 409 "Bot is not connected to voice in this guild.".

(** [POST /guilds/{guild_id}/pause]; the value is the [message] field. *)
Definition pause (guild_id : Z) : Py string :=
  _ ← _ensure_guild guild_id;
  vc ← _connected_voice_client guild_id;
  match vc with
  | None => raise not_connected
  | Some vc =>
      if is_paused vc then mret "Playback is already paused."
      else if negb (is_playing vc)
      then raise (HTTPException 409 "Nothing is currently playing.")
      else vc_pause guild_id;; mret "Paused."
  end.

(** [POST /guilds/{guild_id}/skip] *)
Definition skip (guild_id : Z) : Py string :=
  _ ← _ensure_guild guild_id;
  vc ← _connected_voice_client guild_id;
  match vc with
  | None => raise not_connected
  | Some vc =>
      if negb (is_playing vc)
      then raise (HTTPException 409 "Nothing is currently playing.")
      else vc_stop guild_id;; mret "Skipped."
  end.

(** [POST /guilds/{guild_id}/stop] *)
Definition stop (guild_id : Z) : Py string :=
  _ ← _ensure_guild guild_id;
  _ ← get_state guild_id;
  with_lock guild_id (queue_clear guild_id;; set_now_playing guild_id None);;
  vc ← _connected_voice_client guild_id;
  match vc with
  | Some _ => vc_stop guild_id
  | None => mret tt
  end;;
  mret "Stopped and cleared the queue.".

End Api.

(** ** The slash commands (bot.py) *)

Module Bot.

(** [interaction.user]: absent, a [discord.User], or a [discord.Member]
    with its display name and the voice channel it sits in, if any. *)
Inductive InteractionUser : Type :=
| NoUser
| PlainUser
| Member (display_name : string) (voice_channel : option Z).

(** What the commands read from a [discord.Interaction].  The guild is
    named by its id; its voice client is the one the world holds for it. *)
Record Interaction : Type := mkInteraction {
  i_guild : option Z;
  i_channel : option Z;
  i_user : InteractionUser
}.

(** [interaction.guild.voice_client if interaction.guild else None] *)
Definition interaction_voice (i : Interaction) : Py VoiceProtocol :=
  match i_guild i with
  | Some gid => gets (fun w => guild_voice w gid)
  | None => mret NoVoice
  end.

(** [await interaction.followup.send(text)] *)
Definition followup (text : string) : Py unit := emit (Followup text).

(** [safe_interaction_reply]: every command defers first, so the response
    is done and the reply goes through the followup webhook. *)
Definition safe_interaction_reply (text : string) : Py unit := followup text.

(** [MusicManager.ensure_member]: display name and voice channel. *)
Definition ensure_member (i : Interaction) : Py (string * option Z) :=
  match i_user i with
  | Member name ch => mret (name, ch)
  | _ => raise (RuntimeError "Could not read your member state.")
  end.

Definition set_guild_voice (guild_id : Z) (v : VoiceProtocol) : Py unit :=
  update (with_guilds (insert guild_id (mkGuild v))).

(** [MusicManager.ensure_voice]; the voice client it returns is the one
    the guild holds afterwards. *)
Definition ensure_voice (i : Interaction) : Py unit :=
  match i_guild i with
  | None => raise (RuntimeError "This command only works in a server.")
  | Some gid =>
      member ← ensure_member i;
      match snd member with
      | None => raise (RuntimeError "You must be in a voice channel.")
      | Some user_channel =>
          voice ← gets (fun w => guild_voice w gid);
          let connect_now : Py unit :=
            r ← gets (fun w => connect (env w) user_channel);
            match r with
            | Raised e => raise e
            | Returned true =>
                set_guild_voice gid (Voice (mkVoice true (Some user_channel) None));;
                emit (VcConnect gid user_channel)
            | Returned false =>
                set_guild_voice gid OtherProtocol;;
                raise (RuntimeError "Unsupported voice protocol implementation.")
            end in
          match voice with
          | Voice vc =>
              if vc_connected vc then
                match vc_channel vc with
                | Some ch =>
                    if negb (ch =? user_channel) then
                      name ← gets (fun w => channel_name (env w) ch);
                      raise (RuntimeError
                        ("I'm already in **" ++ name ++ "**. Join that channel first."))
                    else mret tt
                | None => mret tt
                end
              else connect_now
          | _ => connect_now
          end
      end
  end.

(** [/play query] *)
Definition play (i : Interaction) (query : string) : Py unit :=
  emit Defer;;
  match i_guild i, i_channel i with
  | Some gid, Some cid =>
      _ ← get_state gid;
      try_except
        (ensure_voice i;;
         member ← ensure_member i;
         outcome ← gets (fun w => ydl (env w) query);
         match extract_track outcome query (fst member) with
         | Raised e => raise e
         | Returned track =>
             with_lock gid (queue_append gid track);;
             followup ("Added to queue: **" ++ title track ++ "**"
                         ++ PyStr.nl ++ webpage_url track);;
             voice ← gets (fun w => guild_voice w gid);
             match voice with
             | Voice vc =>
                 if (negb (is_playing vc) && negb (is_paused vc))%bool
                 then play_next gid (Some cid)
                 else mret tt
             | _ => mret tt
             end
         end)
        any_exception
        (fun e => safe_interaction_reply (exn_str e))
  | _, _ => followup "This command only works in a server."
  end.

(** The replies of [/pause], [/resume] and [/skip] when there is no
    connected [discord.VoiceClient]. *)
Definition connected_voice (i : Interaction) : Py (option VoiceClient) :=
  voice ← interaction_voice i;
  match voice with
  | Voice vc => if vc_connected vc then mret (Some vc) else mret None
  | _ => mret None
  end.

(** [/pause] *)
Definition pause (i : Interaction) : Py unit :=
  emit Defer;;
  vc ← connected_voice i;
  match vc, i_guild i with
  | Some vc, Some gid =>
      if is_paused vc then followup "Playback is already paused."
      else if negb (is_playing vc) then followup "Nothing is playing."
      else vc_pause gid;; followup "Paused."
  | _, _ => followup "I'm not connected."
  end.

(** [/skip] *)
Definition skip (i : Interaction) : Py unit :=
  emit Defer;;
  vc ← connected_voice i;
  match vc, i_guild i with
  | Some vc, Some gid =>
      if negb (is_playing vc) then followup "Nothing is playing."
      else vc_stop gid;; followup "Skipped."
  | _, _ => followup "I'm not connected."
  end.

(** [/stop] *)
Definition stop (i : Interaction) : Py unit :=
  emit Defer;;
  match i_guild i with
  | None => followup "Server only."
  | Some gid =>
      _ ← get_state gid;
      with_lock gid (queue_clear gid;; set_now_playing gid None);;
      vc ← connected_voice i;
      match vc with
      | Some _ => vc_stop gid
      | None => mret tt
      end;;
      followup "Stopped and cleared the queue."
  end.

(** [f"{idx + 1}. {track.title}" for idx, track in enumerate(tracks)],
    counting from [idx]. *)
Fixpoint numbered (idx : Z) (tracks : list Track) : list string :=
  match tracks with
  | [] => []
  | t :: rest => (PyStr.of_int (idx + 1) ++ ". " ++ title t) :: numbered (idx + 1) rest
  end.

(** The list [lines] that [/queue] builds. *)
Definition queue_lines (percent : Z) (st : GuildMusicState) : list string :=
  let lines := ["Volume: " ++ PyStr.of_int percent ++ "%"] in
  let lines :=
    match now_playing st with
    | Some t => (lines ++ [("Now: " ++ title t)%string])%list
    | None => lines
    end in
  match queue st with
  | [] => lines
  | _ :: _ => (lines ++ numbered 0 (firstn 10 (queue st)))%list
  end.

(** [/queue] *)
Definition queue_cmd (i : Interaction) : Py unit :=
  emit Defer;;
  match i_guild i with
  | None => followup "Server only."
  | Some gid =>
      _ ← get_state gid;
      percent ← get_volume_percent gid;
      st ← gets (fun w => state_of w gid);
      match queue_lines percent st with
      | [] => followup "Queue is empty."
      | lines =>
          let n := Z.of_nat (length (queue st)) in
          let more :=
            if n <=? 10 then ""
            else PyStr.nl ++ "...and " ++ PyStr.of_int (n - 10) ++ " more." in
          followup ("Queue:" ++ PyStr.nl ++ PyStr.join PyStr.nl lines ++ more)
      end
  end.

End Bot.

(** ** Vocabulary of the statements *)

(** Whether a percent, stored as a fraction and read back with
    [int(round(volume * 100))], is itself. *)
Definition percent_round_trips (c : Z) : bool :=
  match py_round (PrimFloat.mul (int_true_div c 100) (float_of_int 100)) with
  | Returned c' => c =? c'
  | Raised _ => false
  end.

(** Whether the guild holds a [discord.VoiceClient] that is connected. *)
Definition connected (w : World) (guild_id : Z) : bool :=
  match guild_voice w guild_id with
  | Voice vc => vc_connected vc
  | _ => false
  end.

(** The reply of [/stop] and the [message] of the stop route. *)
Definition stop_reply : string := "Stopped and cleared the queue.".

(** The message [play_next] logs when the render of [track] cannot start. *)
Definition render_failure_log (w : World) (track : Track) : string :=
  match ffmpeg_error (env w) (stream_url track) with
  | Some _ => "Failed to create ffmpeg source for '" ++ title track ++ "'."
  | None => "Discord voice client failed to start playback."
  end.

(** The conflict the skip and pause routes raise when no render plays. *)
Definition skip_conflict : PyExn := HTTPException 409 "Nothing is currently playing.".
Definition pause_conflict : PyExn := HTTPException 409 "Nothing is currently playing.".

(** ** Concrete worlds

    One guild, [1], whose voice client sits in channel [5]; the caller is a
    member in that channel, writing in text channel [9]. *)

Module Sample.

Definition env : Env :=
  mkEnv
    (fun q => YdlReturns (PyDict [("title", PyStrV q); ("url", PyStrV ("https://cdn/" ++ q))]))
    (fun _ => None) (fun _ => None) (fun _ => Some true) (fun _ => Returned true)
    (fun _ => None) (fun _ => Returned true) (fun _ => "General").

(** The same collaborators, except that yt-dlp finds nothing. *)
Definition env_no_result : Env :=
  mkEnv
    (fun _ => YdlRaisesYoutubeDLError "ERROR: no video results")
    (fun _ => None) (fun _ => None) (fun _ => Some true) (fun _ => Returned true)
    (fun _ => None) (fun _ => Returned true) (fun _ => "General").

(** The same collaborators, except that ffmpeg cannot open any stream. *)
Definition env_no_ffmpeg : Env :=
  mkEnv
    (fun q => YdlReturns (PyDict [("title", PyStrV q); ("url", PyStrV ("https://cdn/" ++ q))]))
    (fun _ => Some (DiscordException "ffmpeg was not found.")) (fun _ => None)
    (fun _ => Some true) (fun _ => Returned true)
    (fun _ => None) (fun _ => Returned true) (fun _ => "General").

Definition track_a : Track := mkTrack "A" "https://page/a" "https://cdn/a" "alice".
Definition track_b : Track := mkTrack "B" "https://page/b" "https://cdn/b" "bob".

Definition player (paused : bool) : Player :=
  mkPlayer "https://cdn/a" 1%float paused (1, Some 9).

Definition vc_idle : VoiceClient := mkVoice true (Some 5) None.
Definition vc_playing : VoiceClient := mkVoice true (Some 5) (Some (player false)).
Definition vc_paused : VoiceClient := mkVoice true (Some 5) (Some (player true)).

Definition world (e : Env) (vc : VoiceClient) (q : list Track) (np : option Track) : World :=
  mkWorld e {[ 1 := mkState q np 1%float ]} {[ 1 := mkGuild (Voice vc) ]} true [] [] [] [].

(** Track A renders, track B waits. *)
Definition playing : World := world env vc_playing [track_b] (Some track_a).
(** The same, paused. *)
Definition paused : World := world env vc_paused [track_b] (Some track_a).
(** Connected, nothing renders, nothing queued. *)
Definition idle : World := world env vc_idle [] None.

Definition caller : Bot.Interaction :=
  Bot.mkInteraction (Some 1) (Some 9) (Bot.Member "alice" (Some 5)).

End Sample.

(** ** More of MusicManager, of the voice client and of the loop *)

(** Whether the voice client of a guild holds the player of a render that
    ended by itself. *)
Definition holds_finished (w : World) (guild_id : Z) : bool :=
  existsb (Z.eqb guild_id) (finished w).

(** [isinstance(vc.source, discord.PCMVolumeTransformer)] for the voice client
    of a guild.  [vc.source] is the source of [vc._player], and every source
    the program plays is the [PCMVolumeTransformer] that [play_next] builds,
    so the test asks whether the voice client holds a player at all, live or
    finished. *)
Definition has_source (w : World) (guild_id : Z) : bool :=
  match guild_voice w guild_id with
  | Voice vc =>
      match vc_player vc with
      | Some _ => true
      | None => holds_finished w guild_id
      end
  | _ => false
  end.

(** [MusicManager.apply_volume_to_active].  On a live player the new volume is
    the player's; on the source of a finished render it is written as well,
    but nothing reads it any more, so only the [get_state] and the answer
    remain. *)
Definition apply_volume_to_active (guild_id : Z) : Py bool :=
  g ← gets (fun w => guilds w !! guild_id);
  match g with
  | None => mret false
  | Some g =>
      match voice_client g with
      | Voice vc =>
          match vc_player vc with
          | Some p =>
              state ← get_state guild_id;
              update_voice guild_id
                (set_player (Some (mkPlayer (pl_stream_url p) (volume state)
                                     (pl_paused p) (pl_after p))));;
              mret true
          | None =>
              kept ← gets (fun w => holds_finished w guild_id);
              if kept : bool
              then _ ← get_state guild_id; mret true
              else mret false
          end
      | _ => mret false
      end
  end.

(** The player thread coming to the end of its source, or failing on it with
    [err]: it stops and calls [after(err)].  The voice client keeps the
    finished player: it is no longer live ([is_playing] and [is_paused] are
    both false for it, as they are here without a live player), but its
    source is still what [vc.source] returns. *)
Definition player_ends (guild_id : Z) (err : option PyExn) : Py unit :=
  p ← gets (fun w => the_player w guild_id);
  match p with
  | Some p =>
      update_voice guild_id (set_player None);;
      update (with_finished (cons guild_id));;
      call_after p err
  | None => mret tt
  end.

(** [await vc.disconnect()]: discord.py calls [stop], closes the connection
    and removes the voice client from the guild. *)
Definition vc_disconnect (guild_id : Z) : Py unit :=
  vc_stop guild_id;;
  update (with_guilds (insert guild_id (mkGuild NoVoice))).




(** The stream URLs handed to [vc.play] in a guild, oldest first. *)
Fixpoint played (guild_id : Z) (t : list Event) : list string :=
  match t with
  | [] => []
  | VcPlay g url _ :: rest =>
      if g =? guild_id then url :: played guild_id rest else played guild_id rest
  | _ :: rest => played guild_id rest
  end.


(** ** More HTTP routes (api.py) *)

Module Http.

Inductive ChannelKind : Type :=
| VoiceChannel
| StageChannel
| OtherChannel.

(** What the routes read from a channel object. *)
Record Channel : Type := mkChannel {
  ch_kind : ChannelKind;
  ch_guild : Z
}.

(** What discord.py knows about the channels, for the routes.  The routes
    read the kind and the guild of a channel, the now-playing notices (through
    [Env]) only whether it can be written to; the two views are kept apart. *)
Record Directory : Type := mkDirectory {
  (** [guild.get_channel(channel_id)] *)
  guild_channel : Z -> Z -> option Channel;
  (** [await bot.fetch_channel(channel_id)] *)
  fetched_channel : Z -> Outcome Channel;
  (** [guild.system_channel], by its id *)
  system_channel : Z -> option Z;
  (** [guild.text_channels], by their ids *)
  text_channels : Z -> list Z;
  (** [await active.move_to(target)] in a guild: the exception raised, if any *)
  move_error : Z -> Z -> option PyExn
}.

(** [PlayRequest], after pydantic has validated it and filled the default
    of [requested_by]. *)
Record PlayRequest : Type := mkPlayRequest {
  rq_query : string;
  rq_requested_by : string;
  rq_voice_channel_id : option Z;
  rq_text_channel_id : option Z
}.

Record TrackPayload : Type := mkTrackPayload {
  tp_title : string;
  tp_webpage_url : string;
  tp_requested_by : string
}.

Record QueueResponse : Type := mkQueueResponse {
  qr_guild_id : Z;
  qr_volume_percent : Z;
  qr_now_playing : option TrackPayload;
  qr_queue : list TrackPayload
}.

(** The dict [play] returns. *)
Record PlayResponse : Type := mkPlayResponse {
  pr_message : string;
  pr_guild_id : Z;
  pr_queue_length : Z;
  pr_track : TrackPayload
}.

Definition _track_payload (track : Track) : TrackPayload :=
  mkTrackPayload (title track) (webpage_url track) (requested_by track).

(** [_load_voice_channel]; the channel it returns has the id asked for. *)
Definition _load_voice_channel (d : Directory) (guild_id voice_channel_id : Z) : Py Channel :=
  channel ←
    match guild_channel d guild_id voice_channel_id with
    | Some c => mret c
    | None =>
        match fetched_channel d voice_channel_id with
        | Returned c => mret c
        | Raised e =>
            if is_discord_exception e
            then raise (HTTPException 404
                   ("Voice channel " ++ PyStr.of_int voice_channel_id ++ " was not found."))
            else raise e
        end
    end;
  match ch_kind channel with
  | OtherChannel =>
      raise (HTTPException 400 "voice_channel_id must reference a voice or stage channel.")
  | _ =>
      if negb (ch_guild channel =? guild_id)
      then raise (HTTPException 400 "voice_channel_id does not belong to this guild.")
      else mret channel
  end.

(** [_default_text_channel_id] *)
Definition _default_text_channel_id (d : Directory) (guild_id : Z) : option Z :=
  match system_channel d guild_id with
  | Some c => Some c
  | None =>
      match text_channels d guild_id with
      | c :: _ => Some c
      | [] => None
      end
  end.

(** [await active.move_to(target)] *)
Definition vc_move_to (d : Directory) (guild_id target : Z) : Py unit :=
  match move_error d guild_id target with
  | Some e => raise e
  | None =>
      update_voice guild_id
        (fun vc => mkVoice (vc_connected vc) (Some target) (vc_player vc))
  end.

(** [await target_channel.connect()], and what it leaves in the guild. *)
Definition channel_connect (guild_id target : Z) : Py bool :=
  r ← gets (fun w => connect (env w) target);
  match r with
  | Raised e => raise e
  | Returned true =>
      update (with_guilds (insert guild_id (mkGuild (Voice (mkVoice true (Some target) None)))));;
      emit (VcConnect guild_id target);;
      mret true
  | Returned false =>
      update (with_guilds (insert guild_id (mkGuild OtherProtocol)));;
      mret false
  end.

(** [_ensure_voice_connection]; the voice client it returns is the one the
    guild holds afterwards. *)
Definition _ensure_voice_connection (d : Directory) (guild_id : Z)
    (voice_channel_id : option Z) : Py unit :=
  active ← Api._connected_voice_client guild_id;
  match active with
  | Some vc =>
      match voice_channel_id, vc_channel vc with
      | Some wanted, Some current =>
          if (negb (wanted =? 0) && negb (current =? wanted))%bool
          then
            _ ← _load_voice_channel d guild_id wanted;
            try_except
              (vc_move_to d guild_id wanted)
              is_discord_exception
              (fun _ => raise (HTTPException 400
                 ("Failed to move to voice channel " ++ PyStr.of_int wanted ++ ".")))
          else mret tt
      | _, _ => mret tt
      end
  | None =>
      match voice_channel_id with
      | None =>
          raise (HTTPException 400
            "Bot is not connected. Provide voice_channel_id to connect first.")
      | Some wanted =>
          _ ← _load_voice_channel d guild_id wanted;
          is_voice_client ←
            try_except
              (channel_connect guild_id wanted)
              is_discord_exception
              (fun _ => raise (HTTPException 400
                 ("Failed to connect to voice channel " ++ PyStr.of_int wanted ++ ".")));
          if is_voice_client : bool then mret tt
          else raise (HTTPException 500 "Discord returned an unsupported voice client type.")
      end
  end.

(** [GET /guilds/{guild_id}/queue] *)
Definition get_queue (guild_id : Z) : Py QueueResponse :=
  _ ← Api._ensure_guild guild_id;
  _ ← get_state guild_id;
  snapshot ← with_lock guild_id (gets (fun w => state_of w guild_id));
  percent ← get_volume_percent guild_id;
  mret (mkQueueResponse guild_id percent
          (option_map _track_payload (now_playing snapshot))
          (map _track_payload (queue snapshot))).

(** [POST /guilds/{guild_id}/play] *)
Definition play (d : Directory) (guild_id : Z) (payload : PlayRequest) : Py PlayResponse :=
  _ ← Api._ensure_guild guild_id;
  _ensure_voice_connection d guild_id (rq_voice_channel_id payload);;
  outcome ← gets (fun w => ydl (env w) (rq_query payload));
  match extract_track outcome (rq_query payload) (rq_requested_by payload) with
  | Raised e => raise e
  | Returned track =>
      _ ← get_state guild_id;
      queue_length ←
        with_lock guild_id
          (queue_append guild_id track;;
           gets (fun w => Z.of_nat (length (queue (state_of w guild_id)))));
      let text_channel_id :=
        match rq_text_channel_id payload with
        | Some c => if c =? 0 then _default_text_channel_id d guild_id else Some c
        | None => _default_text_channel_id d guild_id
        end in
      voice ← gets (fun w => guild_voice w guild_id);
      match voice with
      | Voice vc =>
          if (negb (is_playing vc) && negb (is_paused vc))%bool
          then play_next guild_id text_channel_id
          else mret tt
      | _ => mret tt
      end;;
      mret (mkPlayResponse "Track queued." guild_id queue_length (_track_payload track))
  end.

(** [POST /guilds/{guild_id}/resume] *)
Definition resume (guild_id : Z) : Py string :=
  _ ← Api._ensure_guild guild_id;
  vc ← Api._connected_voice_client guild_id;
  match vc with
  | None => raise Api.not_connected
  | Some vc =>
      if is_paused vc then vc_resume guild_id;; mret "Resumed."
      else if is_playing vc then mret "Playback is already running."
      else raise (HTTPException 409 "Nothing is paused.")
  end.

(** [require_api_key], for the configured token and the [X-API-Key] header. *)
Definition require_api_key (api_token x_api_key : option string) : Outcome unit :=
  match api_token with
  | None => Returned tt
  | Some token =>
      match x_api_key with
      | Some key =>
          if String.eqb key token then Returned tt
          else Raised (HTTPException 401 "Invalid or missing API key.")
      | None => Raised (HTTPException 401 "Invalid or missing API key.")
      end
  end.

End Http.

(** ** More slash commands (bot.py) *)

Module Slash.

(** [/join] *)
Definition join (i : Bot.Interaction) : Py unit :=
  emit Defer;;
  try_except
    (Bot.ensure_voice i;; Bot.followup "Joined your voice channel.")
    any_exception
    (fun e => Bot.safe_interaction_reply (exn_str e)).

(** [/resume] *)
Definition resume (i : Bot.Interaction) : Py unit :=
  emit Defer;;
  vc ← Bot.connected_voice i;
  match vc, Bot.i_guild i with
  | Some vc, Some gid =>
      if is_paused vc then vc_resume gid;; Bot.followup "Resumed."
      else if is_playing vc then Bot.followup "Playback is already running."
      else Bot.followup "Nothing is paused."
  | _, _ => Bot.followup "I'm not connected."
  end.

(** [/volume percent] *)
Definition volume_cmd (i : Bot.Interaction) (percent : Z) : Py unit :=
  emit Defer;;
  match Bot.i_guild i with
  | None => Bot.followup "Server only."
  | Some gid =>
      if ((percent <? 0) || (200 <? percent))%bool
      then Bot.followup "Volume must be between 0 and 200."
      else
        applied_percent ← set_volume_percent gid percent;
        applied_to_active ← apply_volume_to_active gid;
        let suffix :=
          if applied_to_active : bool
          then "Applied to the currently playing track."
          else "Will apply from the next track." in
        Bot.followup ("Volume set to **" ++ PyStr.of_int applied_percent ++ "%**. " ++ suffix)
  end.

(** [/leave] *)
Definition leave (i : Bot.Interaction) : Py unit :=
  emit Defer;;
  match Bot.i_guild i with
  | None => Bot.followup "Server only."
  | Some gid =>
      _ ← get_state gid;
      with_lock gid (queue_clear gid;; set_now_playing gid None);;
      vc ← Bot.connected_voice i;
      match vc with
      | Some _ => vc_disconnect gid;; Bot.followup "Disconnected."
      | None => Bot.followup "I'm not connected."
      end
  end.

End Slash.

(** ** Settings (config.py) *)

Module Config.

(** [Settings] of the bot package. *)
Record BotSettings : Type := mkBotSettings {
  bs_token : string;
  bs_guild_id : option Z
}.

(** [Settings] of the backend package. *)
Record Settings : Type := mkSettings {
  token : string;
  guild_id : option Z;
  api_host : string;
  api_port : Z;
  api_token : option string
}.

(** [os.environ.get(name)] followed by a truthiness test: unset and empty
    are the same. *)
Definition get_truthy (environ : gmap string string) (name : string) : option string :=
  match environ !! name with
  | Some v => if PyStr.truthy v then Some v else None
  | None => None
  end.

(** [load_settings] of [discord_music_bot/config.py].  [py_int] is Python's
    [int(text)]: the number, or [None] for the [ValueError]. *)
Definition load_bot_settings (py_int : string -> option Z) (environ : gmap string string)
    : Outcome BotSettings :=
  match get_truthy environ "DISCORD_TOKEN" with
  | None => Raised (RuntimeError "Set DISCORD_TOKEN env var first (your bot token).")
  | Some tok =>
      match get_truthy environ "DISCORD_GUILD_ID" with
      | None => Returned (mkBotSettings tok None)
      | Some raw =>
          match py_int raw with
          | Some n => Returned (mkBotSettings tok (Some n))
          | None => Raised (RuntimeError "DISCORD_GUILD_ID must be an integer.")
          end
      end
  end.

(** [load_settings] of [backend/discord_music_bot/config.py] *)
Definition load_settings (py_int : string -> option Z) (environ : gmap string string)
    : Outcome Settings :=
  match get_truthy environ "DISCORD_TOKEN" with
  | None => Raised (RuntimeError "Set DISCORD_TOKEN env var first (your bot token).")
  | Some tok =>
      let after_guild (gid : option Z) : Outcome Settings :=
        let host := default "0.0.0.0" (environ !! "CONTROL_API_HOST") in
        let port_raw := default "8000" (environ !! "CONTROL_API_PORT") in
        match py_int port_raw with
        | None => Raised (RuntimeError "CONTROL_API_PORT must be an integer.")
        | Some port =>
            let tok_api :=
              match environ !! "CONTROL_API_TOKEN" with
              | Some v => if String.eqb v "" then None else Some v
              | None => None
              end in
            Returned (mkSettings tok gid host port tok_api)
        end in
      match get_truthy environ "DISCORD_GUILD_ID" with
      | None => after_guild None
      | Some raw =>
          match py_int raw with
          | Some n => after_guild (Some n)
          | None => Raised (RuntimeError "DISCORD_GUILD_ID must be an integer.")
          end
      end
  end.

End Config.

(** ** Vocabulary of the further statements *)


(** The messages of the [RuntimeError]s that [extract_track] raises. *)
Definition extraction_messages : list string :=
  [msg_challenge; msg_extraction_failed; msg_unexpected_youtube; msg_response_shape;
   msg_no_playable; msg_metadata_shape; msg_no_stream_url].

(** The conflict the resume route raises when nothing is paused. *)
Definition resume_conflict : PyExn := HTTPException 409 "Nothing is paused.".

(** What [_ensure_guild] raises for a guild the bot does not know. *)
Definition unknown_guild (guild_id : Z) : PyExn :=
  HTTPException 404 ("Guild " ++ PyStr.of_int guild_id ++ " is not available to the bot.").


(** ** More concrete inputs *)

Module Scene.




(** A queue waits, but the bot knows no guild. *)
Definition no_guild : World :=
  mkWorld Sample.env {[ 1 := mkState [Sample.track_a] (Some Sample.track_b) 1%float ]}
    ∅ true [] [] [] [].

(** Channel 5 is a voice channel of guild 1, channel 6 a stage channel of
    guild 1, channels 8 and 9 text channels of guild 1, of which 9 is the
    system channel; channel 7 is a voice channel of guild 2, which guild 1
    does not list but the bot can fetch. *)
Definition directory : Http.Directory :=
  Http.mkDirectory
    (fun g c =>
       if (g =? 1) && (c =? 5) then Some (Http.mkChannel Http.VoiceChannel 1)
       else if (g =? 1) && (c =? 6) then Some (Http.mkChannel Http.StageChannel 1)
       else if (g =? 1) && ((c =? 8) || (c =? 9))
       then Some (Http.mkChannel Http.OtherChannel 1)
       else if (g =? 2) && (c =? 7) then Some (Http.mkChannel Http.VoiceChannel 2)
       else None)
    (fun c =>
       if c =? 5 then Returned (Http.mkChannel Http.VoiceChannel 1)
       else if c =? 6 then Returned (Http.mkChannel Http.StageChannel 1)
       else if c =? 7 then Returned (Http.mkChannel Http.VoiceChannel 2)
       else if (c =? 8) || (c =? 9) then Returned (Http.mkChannel Http.OtherChannel 1)
       else Raised (DiscordException "Unknown Channel"))
    (fun _ => Some 9)
    (fun _ => [8; 9])
    (fun _ _ => None).

Definition request : Http.PlayRequest :=
  Http.mkPlayRequest "song" "Control Panel" None None.


(** The bot knows guild 1 but has no voice client there; track A waits. *)
Definition unconnected : World :=
  mkWorld Sample.env {[ 1 := mkState [Sample.track_a] None 1%float ]}
    {[ 1 := mkGuild NoVoice ]} true [] [] [] [].

(** The caller of [Sample.caller], sitting in voice channel 6 instead. *)
Definition caller_elsewhere : Bot.Interaction :=
  Bot.mkInteraction (Some 1) (Some 9) (Bot.Member "alice" (Some 6)).

(** An [int] that reads a few decimal numerals. *)
Definition py_int (text : string) : option Z :=
  if String.eqb text "8000" then Some 8000
  else if String.eqb text "42" then Some 42
  else None.

Definition environ : gmap string string :=
  {[ "DISCORD_TOKEN" := "token"; "DISCORD_GUILD_ID" := ""; "CONTROL_API_TOKEN" := "secret" ]}.

End Scene.

(** * Properties *)

(** ** Running computations *)

Ltac py_unfold :=
  unfold with_lock, try_finally, try_except, attempt, log_error, emit,
    set_now_playing, set_volume, queue_append, queue_clear, queue_pop_head,
    modify_state, update, gets, raise, mbind, py_bind, mret, py_ret in *.

(** Case analysis on every [match] whose scrutinee is not itself a [match]. *)
Ltac case_all :=
  repeat match goal with
         | |- context [match ?x with _ => _ end] =>
             lazymatch x with
             | context [match _ with _ => _ end] => fail
             | _ => destruct x eqn:?; cbn
             end
         end.

Lemma state_of_insert (w : World) (g g' : Z) (st : GuildMusicState) :
  state_of (with_states (insert g st) w) g' =
  if decide (g = g') then st else state_of w g'.
Proof.
  unfold state_of; cbn. rewrite lookup_insert. destruct (decide (g = g')); reflexivity.
Qed.

Lemma state_of_insert_eq (w : World) (g : Z) (st : GuildMusicState) :
  state_of (with_states (insert g st) w) g = st.
Proof. unfold state_of; cbn. rewrite lookup_insert_eq. reflexivity. Qed.

Lemma state_of_with_trace (w : World) (f : list Event -> list Event) (g : Z) :
  state_of (with_trace f w) g = state_of w g.
Proof. reflexivity. Qed.

Lemma state_of_with_guilds (w : World) (f : gmap Z Guild -> gmap Z Guild) (g : Z) :
  state_of (with_guilds f w) g = state_of w g.
Proof. reflexivity. Qed.

Lemma state_of_with_tasks (w : World) (f : list Task -> list Task) (g : Z) :
  state_of (with_tasks f w) g = state_of w g.
Proof. reflexivity. Qed.

Lemma state_of_with_handoff (w : World) (f : list Callback -> list Callback) (g : Z) :
  state_of (with_handoff f w) g = state_of w g.
Proof. reflexivity. Qed.

Lemma state_of_with_finished (w : World) (f : list Z -> list Z) (g : Z) :
  state_of (with_finished f w) g = state_of w g.
Proof. reflexivity. Qed.

Create Rewrite HintDb world.
#[export] Hint Rewrite state_of_with_trace state_of_with_guilds state_of_with_tasks
  state_of_with_handoff state_of_with_finished state_of_insert : world.

Lemma get_state_eq (w : World) (g : Z) :
  get_state g w = (Returned (state_of w g), with_states (insert g (state_of w g)) w).
Proof.
  unfold get_state, state_of. destruct (states w !! g) eqn:E; cbn; [|reflexivity].
  f_equal. unfold with_states. rewrite insert_id by exact E. destruct w; reflexivity.
Qed.

Lemma state_of_refresh (w : World) (g g' : Z) :
  state_of (with_states (insert g (state_of w g)) w) g' = state_of w g'.
Proof.
  rewrite state_of_insert. destruct (decide (g = g')); subst; reflexivity.
Qed.

Lemma get_volume_percent_eq (w : World) (guild_id : Z) :
  get_volume_percent guild_id w =
  (py_round (PrimFloat.mul (volume (state_of w guild_id)) (float_of_int 100)),
   with_states (insert guild_id (state_of w guild_id)) w).
Proof.
  unfold get_volume_percent. unfold mbind, py_bind. rewrite get_state_eq.
  destruct (py_round _); reflexivity.
Qed.

(** ** Volume *)

Lemma percent_round_trips_all :
  forallb percent_round_trips (map Z.of_nat (seq 0 201)) = true.
Proof. vm_compute. reflexivity. Qed.

Lemma percent_round_trip (c : Z) :
  0 <= c <= 200 ->
  py_round (PrimFloat.mul (int_true_div c 100) (float_of_int 100)) = Returned c.
Proof.
  intros Hc.
  pose proof percent_round_trips_all as Hall.
  rewrite forallb_forall in Hall.
  specialize (Hall c). unfold percent_round_trips in Hall.
  destruct (py_round _) as [c'|e].
  - f_equal. symmetry. apply Z.eqb_eq. apply Hall.
    apply in_map_iff. exists (Z.to_nat c). split; [lia|]. apply in_seq. lia.
  - exfalso. assert (false = true) as Hf; [|discriminate Hf].
    apply Hall. apply in_map_iff. exists (Z.to_nat c). split; [lia|]. apply in_seq. lia.
Qed.

(** C7.  [set_volume_percent] returns [max(0, min(200, percent))], a value
    of [0..200]; afterwards the session's volume is that value divided by
    100 (the float Python's [/] gives), the volume read back as a percent is
    the value returned, and no session's queue or now-playing slot has
    changed. *)
Theorem set_volume_percent_clamps (w : World) (guild_id percent : Z) :
  let r := set_volume_percent guild_id percent w in
  let clamped := Z.max 0 (Z.min 200 percent) in
  fst r = Returned clamped
  /\ 0 <= clamped <= 200
  /\ volume (state_of (snd r) guild_id) = int_true_div clamped 100
  /\ fst (get_volume_percent guild_id (snd r)) = Returned clamped
  /\ (forall g, queue (state_of (snd r) g) = queue (state_of w g))
  /\ (forall g, now_playing (state_of (snd r) g) = now_playing (state_of w g)).
Proof.
  cbn zeta. unfold set_volume_percent. py_unfold. rewrite get_state_eq. cbn.
  repeat split; try lia; try intros g.
  - rewrite state_of_with_trace, state_of_insert_eq. reflexivity.
  - rewrite get_volume_percent_eq. cbn.
    rewrite state_of_with_trace, state_of_insert_eq. cbn.
    rewrite percent_round_trip by lia. reflexivity.
  - rewrite state_of_with_trace, state_of_insert.
    destruct (decide (guild_id = g)); subst; cbn; rewrite state_of_refresh; reflexivity.
  - rewrite state_of_with_trace, state_of_insert.
    destruct (decide (guild_id = g)); subst; cbn; rewrite state_of_refresh; reflexivity.
Qed.

(** ** Advance while a render is active *)

(** C1.  When the session has a voice client and that client reports a
    render as playing or paused, [play_next] returns without starting a
    renderer: the voice clients (and so the running player) are what they
    were, the critical section is entered and left with nothing done in it,
    no task or callback is scheduled, and no session's queue, now-playing
    slot or volume has changed. *)
Theorem play_next_noop_while_rendering (w : World) (guild_id : Z)
    (text_channel_id : option Z) (g : Guild) (vc : VoiceClient) :
  guilds w !! guild_id = Some g ->
  voice_client g = Voice vc ->
  (is_playing vc || is_paused vc)%bool = true ->
  let r := play_next guild_id text_channel_id w in
  fst r = Returned tt
  /\ guilds (snd r) = guilds w
  /\ trace (snd r) = (trace w ++ [Acquire guild_id; Release guild_id])%list
  /\ tasks (snd r) = tasks w
  /\ handoff (snd r) = handoff w
  /\ (forall g', state_of (snd r) g' = state_of w g').
Proof.
  intros Hg Hvc Hactive r.
  assert (r = (Returned tt,
               with_trace (fun t => ((t ++ [Acquire guild_id]) ++ [Release guild_id])%list)
                 (with_states (insert guild_id (state_of w guild_id)) w))) as ->.
  { unfold r, play_next, take_next.
    unfold mbind at 1, py_bind at 1. rewrite get_state_eq.
    py_unfold. unfold guild_voice. cbn. rewrite Hg, Hvc. cbn. rewrite Hactive. reflexivity. }
  cbn. rewrite <- app_assoc. repeat split; try reflexivity.
  intros g'. rewrite state_of_with_trace. apply state_of_refresh.
Qed.

Lemma play_next_noop_while_rendering_witness :
  let r := play_next 1 (Some 9) Sample.playing in
  fst r = Returned tt
  /\ guilds (snd r) = guilds Sample.playing
  /\ trace (snd r) = (trace Sample.playing ++ [Acquire 1; Release 1])%list
  /\ tasks (snd r) = tasks Sample.playing
  /\ handoff (snd r) = handoff Sample.playing
  /\ (forall g', state_of (snd r) g' = state_of Sample.playing g').
Proof.
  apply (play_next_noop_while_rendering Sample.playing 1 (Some 9)
           (mkGuild (Voice Sample.vc_playing)) Sample.vc_playing);
    reflexivity.
Defined.


(** ** Stop *)

(** Against C2 as stated: a render is live on a voice client that reports
    not connected, as it does while discord.py re-establishes the voice
    connection.  Both variants of stop return and clear the session, but
    neither calls [stop] on the voice client: the player is still there and
    playing, and no completion callback has been handed over. *)
Lemma stop_leaves_unconnected_render :
  let vc := mkVoice false (Some 5) (Some (Sample.player false)) in
  let w := Sample.world Sample.env vc [Sample.track_b] (Some Sample.track_a) in
  let a := Api.stop 1 w in
  let b := Bot.stop Sample.caller w in
  is_playing vc = true
  /\ fst a = Returned stop_reply
  /\ fst b = Returned tt
  /\ queue (state_of (snd a) 1) = [] /\ queue (state_of (snd b) 1) = []
  /\ the_player (snd a) 1 = Some (Sample.player false)
  /\ the_player (snd b) 1 = Some (Sample.player false)
  /\ ~ In (VcStop 1) (trace (snd a))
  /\ ~ In (VcStop 1) (trace (snd b))
  /\ handoff (snd a) = [] /\ handoff (snd b) = [].
Proof.
  vm_compute. repeat split; try reflexivity.
  all: intros H; repeat (destruct H as [H|H]; [discriminate H|]); exact H.
Qed.

(** C2, amended.  In a guild the bot knows, both the HTTP route and the slash
    command return normally, leave the session's queue empty and its
    now-playing slot absent, and do it in this order: the lock is taken, the
    queue and the slot are cleared, the lock is released, and only then is
    [stop] called on the voice client, which drops its player.  The renderer
    is signalled only through a voice client that is connected: without one,
    nothing is signalled and every voice client, with whatever player it
    has, is left as it was. *)
Theorem stop_clears_then_signals (w : World) (guild_id : Z) (g : Guild)
    (i : Bot.Interaction) :
  guilds w !! guild_id = Some g ->
  Bot.i_guild i = Some guild_id ->
  let a := Api.stop guild_id w in
  let b := Bot.stop i w in
  let cleared :=
    [Acquire guild_id; QueueClear guild_id; NowPlayingSet guild_id None; Release guild_id] in
  fst a = Returned stop_reply
  /\ fst b = Returned tt
  /\ queue (state_of (snd a) guild_id) = []
  /\ now_playing (state_of (snd a) guild_id) = None
  /\ queue (state_of (snd b) guild_id) = []
  /\ now_playing (state_of (snd b) guild_id) = None
  /\ (if connected w guild_id
      then the_player (snd a) guild_id = None
           /\ the_player (snd b) guild_id = None
           /\ exists rest,
                trace (snd a) = (trace w ++ cleared ++ VcStop guild_id :: rest)%list
                /\ trace (snd b) =
                     (trace w ++ Defer :: cleared ++ VcStop guild_id :: rest
                        ++ [Followup stop_reply])%list
      else guilds (snd a) = guilds w
           /\ guilds (snd b) = guilds w
           /\ trace (snd a) = (trace w ++ cleared)%list
           /\ trace (snd b) = (trace w ++ Defer :: cleared ++ [Followup stop_reply])%list).
Proof.
  intros Hg Hi. cbn zeta.
  unfold Api.stop, Bot.stop, Api._ensure_guild, Api._connected_voice_client,
    Bot.connected_voice, Bot.interaction_voice, Bot.followup, vc_stop, call_after,
    after_play, call_soon_threadsafe, the_player, connected, update_voice.
  rewrite Hi. py_unfold. cbn. rewrite Hg. rewrite !get_state_eq. cbn.
  unfold guild_voice; cbn. rewrite Hg.
  destruct (voice_client g) as [| |vc] eqn:Hv; cbn.
  1,2: autorewrite with world; repeat destruct (decide _); try congruence; cbn;
       rewrite <- ?app_assoc; cbn; repeat split; reflexivity.
  destruct (vc_connected vc) eqn:Hc; cbn; rewrite ?Hg, ?Hv; cbn.
  2: autorewrite with world; repeat destruct (decide _); try congruence; cbn;
     rewrite <- ?app_assoc; cbn; repeat split; reflexivity.
  destruct (vc_player vc) as [p|] eqn:Hp; cbn.
  - destruct (loop_running w) eqn:Hl; cbn;
      autorewrite with world; repeat destruct (decide _); try congruence; cbn;
      rewrite ?lookup_alter_eq, ?Hg; cbn; rewrite ?Hv; cbn;
      rewrite <- ?app_assoc; cbn; repeat split; try reflexivity;
      eexists; split; reflexivity.
  - autorewrite with world; repeat destruct (decide _); try congruence; cbn;
      rewrite ?Hg; cbn; rewrite ?Hv, ?Hp; cbn;
      rewrite <- ?app_assoc; cbn; repeat split; try reflexivity.
    exists []. split; reflexivity.
Qed.

Lemma stop_clears_then_signals_witness :
  guilds Sample.playing !! 1 = Some (mkGuild (Voice Sample.vc_playing))
  /\ Bot.i_guild Sample.caller = Some 1
  /\ fst (Api.stop 1 Sample.playing) = Returned stop_reply
  /\ fst (Bot.stop Sample.caller Sample.playing) = Returned tt
  /\ queue (state_of (snd (Api.stop 1 Sample.playing)) 1) = []
  /\ now_playing (state_of (snd (Bot.stop Sample.caller Sample.playing)) 1) = None.
Proof.
  pose proof (stop_clears_then_signals Sample.playing 1
                (mkGuild (Voice Sample.vc_playing)) Sample.caller eq_refl eq_refl) as H.
  cbn zeta in H. destruct H as (Ha & Hb & Hq & _ & _ & Hn & _).
  repeat split; assumption || reflexivity.
Defined.

(** ** Advance when the render cannot start *)

Lemma try_except_any_returns (body handler_body : Py unit) (w : World) :
  (forall w', fst (handler_body w') = Returned tt) ->
  fst (try_except body any_exception (fun _ => handler_body) w) = Returned tt.
Proof.
  intros Hh. unfold try_except.
  destruct (body w) as [[[]|e] w']; cbn; [reflexivity|apply Hh].
Qed.

(** [play_next] never raises: whatever goes wrong inside is caught. *)
Lemma play_next_never_raises (w : World) (guild_id : Z) (text_channel_id : option Z) :
  fst (play_next guild_id text_channel_id w) = Returned tt.
Proof.
  unfold play_next. unfold mbind at 1, py_bind at 1. rewrite get_state_eq.
  apply try_except_any_returns. intros w'. reflexivity.
Qed.

(** [_schedule_play_next] on a running loop queues the task. *)
Lemma schedule_play_next_running (w : World) (guild_id : Z) (text_channel_id : option Z) :
  loop_running w = true ->
  _schedule_play_next guild_id text_channel_id w =
  (Returned tt,
   with_trace (fun t => (t ++ [CreateTask (PlayNextTask guild_id text_channel_id)])%list)
     (with_tasks (fun ts => (ts ++ [PlayNextTask guild_id text_channel_id])%list) w)).
Proof.
  intros Hl. unfold _schedule_play_next, create_task. py_unfold. cbn. rewrite Hl. reflexivity.
Qed.

(** With an idle voice client, [play_next] takes the head of the queue and
    nothing else from it, however the render start and the notification go. *)
Lemma play_next_takes_head (w : World) (guild_id : Z) (text_channel_id : option Z)
    (g : Guild) (vc : VoiceClient) :
  guilds w !! guild_id = Some g ->
  voice_client g = Voice vc ->
  (is_playing vc || is_paused vc)%bool = false ->
  queue (state_of (snd (play_next guild_id text_channel_id w)) guild_id)
  = tl (queue (state_of w guild_id)).
Proof.
  intros Hg Hv Hidle.
  unfold play_next, take_next, make_source, vc_play, send_now_playing_message,
    _schedule_play_next, create_task, update_voice.
  unfold mbind at 1, py_bind at 1. rewrite get_state_eq.
  py_unfold. cbn. unfold guild_voice. cbn. rewrite Hg, Hv. cbn. rewrite Hidle. cbn.
  rewrite state_of_with_trace, state_of_refresh.
  destruct (queue (state_of w guild_id)) as [|track rest] eqn:Hq; cbn.
  - autorewrite with world. destruct (decide _); [|congruence]. cbn. exact Hq.
  - case_all;
      autorewrite with world; repeat (destruct (decide _); try congruence);
      reflexivity.
Qed.

(** The loop running a [play_next] task leaves the world [play_next] leaves. *)
Lemma run_task_play_next (w : World) (guild_id : Z) (text_channel_id : option Z) :
  run_task (PlayNextTask guild_id text_channel_id) w =
  (Returned tt, snd (play_next guild_id text_channel_id w)).
Proof.
  pose proof (play_next_never_raises w guild_id text_channel_id) as H.
  unfold run_task, _log_task_exception. py_unfold.
  destruct (play_next guild_id text_channel_id w) as [[[]|e] w']; cbn in *;
    [reflexivity|discriminate H].
Qed.

(** C3.  Let the session's voice client be idle and [track] head the queue.
    If building the audio source raises, or [vc.play] raises (the client is
    not connected, or its encoder fails), then [play_next] returns normally:
    the failure is logged, no renderer is started, [track] is gone from the
    queue, and a new [play_next] task for the same session is queued on the
    loop; when the loop runs that task, the entry behind [track] is taken
    from the queue in turn. *)
Theorem play_next_survives_render_failure (w : World) (guild_id : Z)
    (text_channel_id : option Z) (g : Guild) (vc : VoiceClient)
    (track : Track) (rest : list Track) :
  guilds w !! guild_id = Some g ->
  voice_client g = Voice vc ->
  (is_playing vc || is_paused vc)%bool = false ->
  queue (state_of w guild_id) = track :: rest ->
  loop_running w = true ->
  (is_Some (ffmpeg_error (env w) (stream_url track))
   \/ vc_connected vc = false
   \/ is_Some (encoder_error (env w) guild_id)) ->
  exists w',
    play_next guild_id text_channel_id w = (Returned tt, w')
    /\ queue (state_of w' guild_id) = rest
    /\ guilds w' = guilds w
    /\ tasks w' = (tasks w ++ [PlayNextTask guild_id text_channel_id])%list
    /\ trace w' =
         (trace w ++ [Acquire guild_id; QueuePop guild_id track;
                      NowPlayingSet guild_id (Some track); Release guild_id;
                      Log (render_failure_log w track);
                      CreateTask (PlayNextTask guild_id text_channel_id)])%list
    /\ queue (state_of (snd (run_task (PlayNextTask guild_id text_channel_id) w'))
                guild_id) = tl rest.
Proof.
  intros Hg Hv Hidle Hq Hl Hfail.
  enough (exists w',
    play_next guild_id text_channel_id w = (Returned tt, w')
    /\ queue (state_of w' guild_id) = rest
    /\ guilds w' = guilds w
    /\ tasks w' = (tasks w ++ [PlayNextTask guild_id text_channel_id])%list
    /\ trace w' =
         (trace w ++ [Acquire guild_id; QueuePop guild_id track;
                      NowPlayingSet guild_id (Some track); Release guild_id;
                      Log (render_failure_log w track);
                      CreateTask (PlayNextTask guild_id text_channel_id)])%list)
    as (w' & Hrun & Hqueue & Hguilds & Htasks & Htrace).
  { exists w'. repeat split; try assumption.
    rewrite run_task_play_next. cbn.
    rewrite (play_next_takes_head w' guild_id text_channel_id g vc);
      [rewrite Hqueue; reflexivity|rewrite Hguilds; exact Hg|exact Hv|exact Hidle]. }
  unfold play_next, take_next, make_source, vc_play, render_failure_log.
  unfold mbind at 1, py_bind at 1. rewrite get_state_eq.
  py_unfold. cbn. unfold guild_voice. cbn. rewrite Hg, Hv. cbn. rewrite Hidle. cbn.
  rewrite state_of_with_trace, state_of_refresh, Hq. cbn.
  assert (is_playing vc = false) as Hp
    by (destruct (is_playing vc); [discriminate Hidle|reflexivity]).
  assert (forall w0 : World,
            loop_running w0 = true ->
            _schedule_play_next guild_id text_channel_id w0 =
            (Returned tt,
             with_trace (fun t => (t ++ [CreateTask (PlayNextTask guild_id text_channel_id)])%list)
               (with_tasks (fun ts => (ts ++ [PlayNextTask guild_id text_channel_id])%list) w0)))
    as Hs by (intros; apply schedule_play_next_running; assumption).
  destruct (ffmpeg_error (env w) (stream_url track)) as [e|] eqn:Hf; cbn;
    [|rewrite Hg, Hv; cbn; destruct (vc_connected vc) eqn:Hc; cbn;
      [rewrite Hp; cbn; destruct (encoder_error (env w) guild_id) as [e|] eqn:He; cbn;
       [|destruct Hfail as [[x Hx]|[Hx|[x Hx]]]; discriminate]|]];
    rewrite Hs by exact Hl; cbn;
    eexists; (split; [reflexivity|]); cbn;
    autorewrite with world; repeat destruct (decide _); try congruence; cbn;
    rewrite <- ?app_assoc; cbn; repeat split; reflexivity.
Qed.

Lemma play_next_survives_render_failure_witness :
  let w := Sample.world Sample.env_no_ffmpeg Sample.vc_idle
             [Sample.track_a; Sample.track_b] None in
  exists w',
    play_next 1 (Some 9) w = (Returned tt, w')
    /\ queue (state_of w' 1) = [Sample.track_b]
    /\ guilds w' = guilds w
    /\ tasks w' = (tasks w ++ [PlayNextTask 1 (Some 9)])%list
    /\ trace w' =
         (trace w ++ [Acquire 1; QueuePop 1 Sample.track_a;
                      NowPlayingSet 1 (Some Sample.track_a); Release 1;
                      Log (render_failure_log w Sample.track_a);
                      CreateTask (PlayNextTask 1 (Some 9))])%list
    /\ queue (state_of (snd (run_task (PlayNextTask 1 (Some 9)) w')) 1) = [].
Proof.
  apply (play_next_survives_render_failure
           (Sample.world Sample.env_no_ffmpeg Sample.vc_idle
              [Sample.track_a; Sample.track_b] None)
           1 (Some 9) (mkGuild (Voice Sample.vc_idle)) Sample.vc_idle
           Sample.track_a [Sample.track_b]);
    try reflexivity.
  left. eexists. reflexivity.
Defined.

(** The stop route leaves the session cleared. *)
Lemma api_stop_clears (w : World) (guild_id : Z) (g : Guild) :
  guilds w !! guild_id = Some g ->
  queue (state_of (snd (Api.stop guild_id w)) guild_id) = []
  /\ now_playing (state_of (snd (Api.stop guild_id w)) guild_id) = None.
Proof.
  intros Hg.
  unfold Api.stop, Api._ensure_guild, Api._connected_voice_client, vc_stop, call_after,
    after_play, call_soon_threadsafe, update_voice.
  py_unfold. cbn. rewrite Hg. rewrite !get_state_eq. cbn.
  case_all; autorewrite with world; repeat (destruct (decide _); try congruence);
    split; reflexivity.
Qed.

(** ** Stop and the completion callback it provokes *)

(** A cleared session stays cleared when [play_next] runs, whatever the voice
    client does: this is the empty-queue branch of the advance. *)
Lemma play_next_keeps_cleared (w : World) (guild_id : Z) (text_channel_id : option Z) :
  queue (state_of w guild_id) = [] ->
  now_playing (state_of w guild_id) = None ->
  queue (state_of (snd (play_next guild_id text_channel_id w)) guild_id) = []
  /\ now_playing (state_of (snd (play_next guild_id text_channel_id w)) guild_id) = None.
Proof.
  intros Hq Hn.
  set (r := play_next guild_id text_channel_id w).
  enough (exists w', r = (Returned tt, w')
                     /\ queue (state_of w' guild_id) = []
                     /\ now_playing (state_of w' guild_id) = None)
    as (w' & -> & H1 & H2) by (split; assumption).
  unfold r, play_next, take_next.
  unfold mbind at 1, py_bind at 1. rewrite get_state_eq.
  py_unfold. cbn.
  destruct (guild_voice _ guild_id) as [| |vc]; cbn;
    [| |destruct (is_playing vc || is_paused vc)%bool; cbn;
        rewrite ?state_of_with_trace, ?state_of_refresh, ?Hq; cbn];
    (eexists; split; [reflexivity|]);
    autorewrite with world; repeat (destruct (decide _); try congruence); cbn;
    rewrite ?Hq, ?Hn; split; reflexivity.
Qed.

(** After a stop, the callback the dying player hands over and the task it
    turns into find the queue empty: the session is still cleared when they
    have run. *)
Lemma stop_survives_completion (w : World) (guild_id : Z) (g : Guild)
    (text_channel_id : option Z) :
  guilds w !! guild_id = Some g ->
  let stopped := snd (Api.stop guild_id w) in
  let scheduled := snd (run_callback (SchedulePlayNext guild_id text_channel_id) stopped) in
  let advanced := snd (run_task (PlayNextTask guild_id text_channel_id) scheduled) in
  queue (state_of advanced guild_id) = []
  /\ now_playing (state_of advanced guild_id) = None.
Proof.
  intros Hg stopped scheduled advanced.
  pose proof (api_stop_clears w guild_id g Hg) as [Hq Hn].
  fold stopped in Hq, Hn.
  assert (states scheduled = states stopped) as Hs.
  { unfold scheduled, run_callback, _schedule_play_next, create_task. py_unfold. cbn.
    destruct (loop_running stopped); reflexivity. }
  unfold advanced. rewrite run_task_play_next. cbn.
  apply play_next_keeps_cleared; unfold state_of; rewrite Hs; assumption.
Qed.

(** ** Enqueue when extraction fails *)

(** [ensure_voice] reads and writes the guild's voice client only, and
    the only thing it does is to connect. *)
Lemma ensure_voice_frame (i : Bot.Interaction) (w : World) :
  env (snd (Bot.ensure_voice i w)) = env w
  /\ states (snd (Bot.ensure_voice i w)) = states w
  /\ exists evs,
       trace (snd (Bot.ensure_voice i w)) = (trace w ++ evs)%list
       /\ forall ev, In ev evs ->
            exists g c, Bot.i_guild i = Some g /\ ev = VcConnect g c.
Proof.
  unfold Bot.ensure_voice, Bot.ensure_member, Bot.set_guild_voice. py_unfold. cbn.
  case_all; (split; [reflexivity|]); (split; [reflexivity|]);
    first [ exists []; rewrite app_nil_r; split; [reflexivity|intros ev []]
          | eexists; split; [reflexivity|];
            intros ev [<-|[]]; eexists _, _; split; reflexivity ].
Qed.

Lemma ensure_voice_outcome (i : Bot.Interaction) (w w0 : World) :
  env w0 = env w -> guilds w0 = guilds w ->
  fst (Bot.ensure_voice i w0) = fst (Bot.ensure_voice i w).
Proof.
  intros He Hg. destruct w, w0. cbn in He, Hg. subst.
  unfold Bot.ensure_voice, Bot.ensure_member, Bot.set_guild_voice, guild_voice.
  py_unfold. cbn.
  case_all; reflexivity.
Qed.

(** C4.  A [/play] whose extraction fails returns normally with every
    session as it was (queue, now-playing slot and volume), and ends with a
    reply to the caller; when the request got as far as the extraction
    (joining the voice channel succeeded) that reply is the extraction
    error's message. *)
Theorem play_extraction_failure_keeps_state (w : World) (i : Bot.Interaction)
    (query : string) (guild_id channel_id : Z) (name : string) (ch : option Z)
    (e : PyExn) :
  Bot.i_guild i = Some guild_id ->
  Bot.i_channel i = Some channel_id ->
  Bot.i_user i = Bot.Member name ch ->
  extract_track (ydl (env w) query) query name = Raised e ->
  exists w' evs text,
    Bot.play i query w = (Returned tt, w')
    /\ (forall g, state_of w' g = state_of w g)
    /\ trace w' = (trace w ++ Defer :: evs ++ [Followup text])%list
    /\ (forall ev, In ev evs -> exists c, ev = VcConnect guild_id c)
    /\ (fst (Bot.ensure_voice i w) = Returned tt -> text = exn_str e).
Proof.
  intros Hi Hc Hu He.
  unfold Bot.play. rewrite Hi, Hc.
  unfold Bot.safe_interaction_reply, Bot.followup, Bot.ensure_member. rewrite Hu.
  py_unfold. cbn. rewrite get_state_eq. cbn.
  set (w0 := with_states _ _).
  pose proof (ensure_voice_frame i w0) as (Fe & Fs & evs & Ft & Fc).
  pose proof (ensure_voice_outcome i w w0 eq_refl eq_refl) as Fo.
  assert (forall g, state_of w0 g = state_of w g) as Hst.
  { intros g. unfold w0. rewrite state_of_insert, !state_of_with_trace.
    destruct (decide (guild_id = g)); subst; reflexivity. }
  assert (forall ev, In ev evs -> exists c, ev = VcConnect guild_id c) as Hconn.
  { intros ev Hin. destruct (Fc ev Hin) as (g & c & Hg & ->).
    rewrite Hi in Hg. injection Hg as <-. eexists; reflexivity. }
  destruct (Bot.ensure_voice i w0) as [[[]|e'] w1]; cbn in *.
  - rewrite Fe, He. cbn.
    eexists _, evs, (exn_str e). split; [reflexivity|]. repeat split.
    + intros g. rewrite state_of_with_trace. unfold state_of. rewrite Fs. apply Hst.
    + cbn. rewrite Ft. unfold w0. cbn. rewrite <- !app_assoc. reflexivity.
    + exact Hconn.
  - eexists _, evs, (exn_str e'). split; [reflexivity|]. repeat split.
    + intros g. rewrite state_of_with_trace. unfold state_of. rewrite Fs. apply Hst.
    + cbn. rewrite Ft. unfold w0. cbn. rewrite <- !app_assoc. reflexivity.
    + exact Hconn.
    + intros H. rewrite <- Fo in H. discriminate H.
Qed.

Lemma play_extraction_failure_keeps_state_witness :
  let w := Sample.world Sample.env_no_result Sample.vc_playing
             [Sample.track_b] (Some Sample.track_a) in
  exists w' evs text,
    Bot.play Sample.caller "lost song" w = (Returned tt, w')
    /\ (forall g, state_of w' g = state_of w g)
    /\ trace w' = (trace w ++ Defer :: evs ++ [Followup text])%list
    /\ (forall ev, In ev evs -> exists c, ev = VcConnect 1 c)
    /\ (fst (Bot.ensure_voice Sample.caller w) = Returned tt ->
        text = exn_str (RuntimeError msg_extraction_failed)).
Proof.
  apply (play_extraction_failure_keeps_state
           (Sample.world Sample.env_no_result Sample.vc_playing
              [Sample.track_b] (Some Sample.track_a))
           Sample.caller "lost song" 1 9 "alice" (Some 5)
           (RuntimeError msg_extraction_failed));
    reflexivity.
Defined.

(** ** Skip *)

(** Against C5 as stated: with the render paused, the slash command replies
    "Nothing is playing.", does not call [stop] on the voice client, and
    leaves the paused player and the handoff queue as they were. *)
Lemma chat_skip_while_paused_is_rejected :
  let r := Bot.skip Sample.caller Sample.paused in
  is_paused Sample.vc_paused = true
  /\ trace (snd r) = [Defer; Followup "Nothing is playing."]
  /\ ~ In (VcStop 1) (trace (snd r))
  /\ the_player (snd r) 1 = Some (Sample.player true)
  /\ handoff (snd r) = [].
Proof.
  cbn. repeat split; try reflexivity.
  intros [H|[H|[]]]; discriminate H.
Qed.

(** C5, amended.  In a guild the bot knows, with the event loop running,
    both surfaces accept a skip exactly when the guild's voice client is
    connected and its render is playing.  Then [stop] is called on the voice
    client, its player is dropped, the session's state is not touched, the
    answer is "Skipped.", and the player's completion callback is handed to
    the loop, where running it queues the [play_next] task for the player's
    guild and text channel.  In every other case nothing is stopped and
    nothing changes: with the render paused or nothing rendering the HTTP
    route raises the 409 "Nothing is currently playing." and the slash
    command replies "Nothing is playing."; without a connected voice client,
    whatever player it has, the HTTP route raises the 409 "Bot is not
    connected to voice in this guild." and the slash command replies "I'm not
    connected.". *)
Theorem skip_requires_playing (w : World) (guild_id : Z) (g : Guild)
    (i : Bot.Interaction) :
  guilds w !! guild_id = Some g ->
  loop_running w = true ->
  Bot.i_guild i = Some guild_id ->
  let refused (conflict : PyExn) (reply : string) :=
    Api.skip guild_id w = (Raised conflict, w)
    /\ Bot.skip i w =
       (Returned tt, with_trace (fun t => ((t ++ [Defer]) ++ [Followup reply])%list) w) in
  match voice_client g with
  | Voice vc =>
      if vc_connected vc then
        if is_playing vc then
          exists wa wb p,
            vc_player vc = Some p
            /\ let cb := SchedulePlayNext (fst (pl_after p)) (snd (pl_after p)) in
               Api.skip guild_id w = (Returned "Skipped.", wa)
               /\ Bot.skip i w = (Returned tt, wb)
               /\ the_player wa guild_id = None /\ the_player wb guild_id = None
               /\ trace wa = (trace w ++ [VcStop guild_id; CallSoonThreadsafe cb])%list
               /\ trace wb = (trace w ++ [Defer; VcStop guild_id; CallSoonThreadsafe cb;
                                          Followup "Skipped."])%list
               /\ handoff wa = (handoff w ++ [cb])%list
               /\ handoff wb = (handoff w ++ [cb])%list
               /\ states wa = states w /\ states wb = states w
               /\ tasks (snd (run_callback cb wa))
                  = (tasks w ++ [PlayNextTask (fst (pl_after p)) (snd (pl_after p))])%list
        else refused skip_conflict "Nothing is playing."
      else refused Api.not_connected "I'm not connected."
  | _ => refused Api.not_connected "I'm not connected."
  end.
Proof.
  intros Hg Hl Hi. cbn zeta.
  unfold Api.skip, Bot.skip, Api._ensure_guild, Api._connected_voice_client,
    Bot.connected_voice, Bot.interaction_voice, Bot.followup, vc_stop, call_after,
    after_play, call_soon_threadsafe, the_player, update_voice, is_playing.
  rewrite Hi. py_unfold. unfold guild_voice. cbn.
  destruct (voice_client g) as [| |vc] eqn:Hv; cbn;
    [| |destruct (vc_connected vc) eqn:Hc; cbn;
        [destruct (vc_player vc) as [p|] eqn:Hp; cbn;
           [destruct (pl_paused p) eqn:Hpp; cbn|]|]];
    repeat (progress (rewrite ?Hg, ?Hv, ?Hc, ?Hl, ?Hp, ?Hpp; cbn)).
  all: try (split; reflexivity).
  eexists _, _, p. split; [reflexivity|]. split; [reflexivity|]. split; [reflexivity|]. cbn.
  rewrite !lookup_alter_eq, Hg. cbn. rewrite Hv. cbn.
  rewrite <- !app_assoc. cbn.
  unfold _schedule_play_next, create_task, try_except. py_unfold. cbn. rewrite Hl. cbn.
  repeat split; reflexivity.
Qed.

Lemma skip_requires_playing_witness :
  exists wa wb p,
    vc_player Sample.vc_playing = Some p
    /\ let cb := SchedulePlayNext (fst (pl_after p)) (snd (pl_after p)) in
       Api.skip 1 Sample.playing = (Returned "Skipped.", wa)
       /\ Bot.skip Sample.caller Sample.playing = (Returned tt, wb)
       /\ the_player wa 1 = None /\ the_player wb 1 = None
       /\ trace wa = (trace Sample.playing ++ [VcStop 1; CallSoonThreadsafe cb])%list
       /\ trace wb = (trace Sample.playing ++ [Defer; VcStop 1; CallSoonThreadsafe cb;
                                               Followup "Skipped."])%list
       /\ handoff wa = (handoff Sample.playing ++ [cb])%list
       /\ handoff wb = (handoff Sample.playing ++ [cb])%list
       /\ states wa = states Sample.playing /\ states wb = states Sample.playing
       /\ tasks (snd (run_callback cb wa))
          = (tasks Sample.playing
               ++ [PlayNextTask (fst (pl_after p)) (snd (pl_after p))])%list.
Proof.
  exact (skip_requires_playing Sample.playing 1 (mkGuild (Voice Sample.vc_playing))
           Sample.caller eq_refl eq_refl eq_refl).
Defined.

(** ** Pause *)

(** Against C6 as stated: pausing a render that is already paused is not
    answered with a conflict.  The HTTP route returns the message "Playback is
    already paused." and raises nothing; the slash command sends the same
    words.  Nothing is mutated. *)
Lemma pause_while_paused_is_not_a_conflict :
  is_paused Sample.vc_paused = true
  /\ Api.pause 1 Sample.paused = (Returned "Playback is already paused.", Sample.paused)
  /\ (forall e, fst (Api.pause 1 Sample.paused) <> Raised e)
  /\ Bot.pause Sample.caller Sample.paused =
     (Returned tt,
      with_trace (fun _ => [Defer; Followup "Playback is already paused."]) Sample.paused).
Proof.
  repeat split; try reflexivity. intros e H. discriminate H.
Qed.

(** C6, amended.  In a guild the bot knows, on both surfaces:
    - on a connected voice client, a render that is playing is paused, and
      the answer is "Paused.";
    - on a connected voice client, a render that is already paused is left
      alone and the answer is the plain message "Playback is already
      paused.", not an error;
    - on a connected voice client with no render, nothing changes and the
      HTTP route raises the 409 "Nothing is currently playing.", the slash
      command replies "Nothing is playing.";
    - without a connected voice client, whatever player it has, nothing
      changes and the HTTP route raises the 409 "Bot is not connected to
      voice in this guild.", the slash command replies "I'm not connected.".
    The session's state is never touched. *)
Theorem pause_outcomes (w : World) (guild_id : Z) (g : Guild) (i : Bot.Interaction) :
  guilds w !! guild_id = Some g ->
  Bot.i_guild i = Some guild_id ->
  let unchanged (answer : Outcome string) (reply : string) :=
    Api.pause guild_id w = (answer, w)
    /\ Bot.pause i w =
       (Returned tt, with_trace (fun t => ((t ++ [Defer]) ++ [Followup reply])%list) w) in
  match voice_client g with
  | Voice vc =>
      if vc_connected vc then
        if is_paused vc then
          unchanged (Returned "Playback is already paused.") "Playback is already paused."
        else if is_playing vc then
          exists wa wb vc',
            Api.pause guild_id w = (Returned "Paused.", wa)
            /\ Bot.pause i w = (Returned tt, wb)
            /\ guild_voice wa guild_id = Voice vc' /\ guild_voice wb guild_id = Voice vc'
            /\ is_paused vc' = true /\ is_playing vc' = false
            /\ states wa = states w /\ states wb = states w
            /\ trace wa = (trace w ++ [VcPause guild_id])%list
            /\ trace wb = (trace w ++ [Defer; VcPause guild_id; Followup "Paused."])%list
        else unchanged (Raised pause_conflict) "Nothing is playing."
      else unchanged (Raised Api.not_connected) "I'm not connected."
  | _ => unchanged (Raised Api.not_connected) "I'm not connected."
  end.
Proof.
  intros Hg Hi. cbn zeta.
  unfold Api.pause, Bot.pause, Api._ensure_guild, Api._connected_voice_client,
    Bot.connected_voice, Bot.interaction_voice, Bot.followup, vc_pause,
    the_player, update_voice, is_playing, is_paused, pause_conflict.
  rewrite Hi. py_unfold. unfold guild_voice. cbn.
  destruct (voice_client g) as [| |vc] eqn:Hv; cbn;
    [| |destruct (vc_connected vc) eqn:Hc; cbn;
        [destruct (vc_player vc) as [p|] eqn:Hp; cbn;
           [destruct (pl_paused p) eqn:Hpp; cbn|]|]];
    repeat (progress (rewrite ?Hg, ?Hv, ?Hc, ?Hp, ?Hpp; cbn)).
  all: try (split; reflexivity).
  eexists _, _, _. split; [reflexivity|]. split; [reflexivity|]. cbn.
  rewrite !lookup_alter_eq, Hg. cbn. rewrite Hv. cbn.
  rewrite <- !app_assoc. cbn. repeat split; reflexivity.
Qed.

Lemma pause_outcomes_witness :
  exists wa wb vc',
    Api.pause 1 Sample.playing = (Returned "Paused.", wa)
    /\ Bot.pause Sample.caller Sample.playing = (Returned tt, wb)
    /\ guild_voice wa 1 = Voice vc' /\ guild_voice wb 1 = Voice vc'
    /\ is_paused vc' = true /\ is_playing vc' = false
    /\ states wa = states Sample.playing /\ states wb = states Sample.playing
    /\ trace wa = (trace Sample.playing ++ [VcPause 1])%list
    /\ trace wb = (trace Sample.playing ++ [Defer; VcPause 1; Followup "Paused."])%list.
Proof.
  exact (pause_outcomes Sample.playing 1 (mkGuild (Voice Sample.vc_playing))
           Sample.caller eq_refl eq_refl).
Defined.

(** ** Extraction *)

Lemma truthy_nonempty (s : string) : PyStr.truthy s = true <-> s <> "".
Proof. destruct s; cbn; split; congruence. Qed.

(** C8.  Let the metadata yt-dlp returned resolve (directly, or through the
    first dict of its [entries]) to a dict with the given fields.  A track
    that [extract_track] returns has the extracted title when that is a
    non-empty string and "Unknown title" when there is none (absent, not a
    string, or empty); the extracted page URL when that is a non-empty string
    and the query when there is none; a non-empty stream URL, the one extracted; and the requester it was
    given.  It returns a track exactly when the extracted stream URL is a
    non-empty string, and raises "Could not extract an audio stream URL."
    otherwise. *)
Theorem extract_track_builds_track (info : PyVal) (fields : list (string * PyVal))
    (query requester : string) :
  resolve_entries info = Returned (PyDict fields) ->
  let r := extract_track (YdlReturns info) query requester in
  (forall t, r = Returned t ->
     (forall s, dict_get "title" fields = Some (PyStrV s) -> s <> "" -> title t = s)
     /\ ((forall s, dict_get "title" fields = Some (PyStrV s) -> s = "") ->
           title t = "Unknown title")
     /\ (forall s, dict_get "webpage_url" fields = Some (PyStrV s) -> s <> "" ->
           webpage_url t = s)
     /\ ((forall s, dict_get "webpage_url" fields = Some (PyStrV s) -> s = "") ->
           webpage_url t = query)
     /\ dict_get "url" fields = Some (PyStrV (stream_url t))
     /\ stream_url t <> ""
     /\ requested_by t = requester)
  /\ (forall u, dict_get "url" fields = Some (PyStrV u) -> u <> "" ->
        exists t, r = Returned t)
  /\ ((forall u, dict_get "url" fields = Some (PyStrV u) -> u = "") ->
        r = Raised (RuntimeError msg_no_stream_url)).
Proof.
  intros Hres. cbn zeta. unfold extract_track. cbn. rewrite Hres.
  unfold track_of_info, str_or.
  destruct (dict_get "url" fields) as [[ | u | | | | ]|] eqn:Hu;
    try (split; [intros t H; discriminate H
                |split; [intros u' H; discriminate H|intros _; reflexivity]]).
  destruct (PyStr.truthy u) eqn:Htu.
  - apply truthy_nonempty in Htu.
    split; [|split].
    + intros t [= <-]. cbn. repeat split; try assumption.
      * intros s -> Hs. apply truthy_nonempty in Hs. rewrite Hs. reflexivity.
      * intros H. destruct (dict_get "title" fields) as [[ | s | | | | ]|];
          try reflexivity.
        rewrite (H s eq_refl). reflexivity.
      * intros s -> Hs. apply truthy_nonempty in Hs. rewrite Hs. reflexivity.
      * intros H. destruct (dict_get "webpage_url" fields) as [[ | s | | | | ]|];
          try reflexivity.
        rewrite (H s eq_refl). reflexivity.
    + intros u' _ _. eexists. reflexivity.
    + intros H. exfalso. apply Htu. apply H. reflexivity.
  - destruct u; [|discriminate Htu].
    split; [|split].
    + intros t H. discriminate H.
    + intros u' [= <-] H. congruence.
    + intros _. reflexivity.
Qed.

Lemma extract_track_builds_track_witness :
  let fields := [("title", PyStrV ""); ("url", PyStrV "https://cdn/x")] in
  let r := extract_track (YdlReturns (PyDict [("entries", PyList [PyNone; PyDict fields])]))
             "some words" "alice" in
  r = Returned (mkTrack "Unknown title" "some words" "https://cdn/x" "alice")
  /\ exists t, r = Returned t.
Proof.
  cbn zeta. split; [reflexivity|].
  exact (proj1 (proj2 (extract_track_builds_track
           (PyDict [("entries",
                     PyList [PyNone;
                             PyDict [("title", PyStrV ""); ("url", PyStrV "https://cdn/x")]])])
           [("title", PyStrV ""); ("url", PyStrV "https://cdn/x")]
           "some words" "alice" eq_refl))
         "https://cdn/x" eq_refl ltac:(discriminate)).
Defined.


(** ** The completion callback *)

(** Whatever the loop's state, [after_play] writes no session, no voice
    client and no task. *)
Lemma after_play_frame (w : World) (guild_id : Z) (text_channel_id : option Z)
    (err : option PyExn) :
  states (snd (after_play guild_id text_channel_id err w)) = states w
  /\ guilds (snd (after_play guild_id text_channel_id err w)) = guilds w
  /\ tasks (snd (after_play guild_id text_channel_id err w)) = tasks w.
Proof.
  unfold after_play, call_soon_threadsafe. py_unfold.
  destruct err; cbn; destruct (loop_running w); cbn; repeat split; reflexivity.
Qed.

(** C9.  For a completion with or without an error, [after_play] itself
    changes no session state, no voice client and no task: besides logging
    the error it only appends its callback to the loop's thread-safe handoff
    queue.  The [play_next] task exists only after the loop has run that
    callback, and the session states are still untouched then. *)
Theorem after_play_hands_over (w : World) (guild_id : Z)
    (text_channel_id : option Z) (err : option PyExn) :
  loop_running w = true ->
  let cb := SchedulePlayNext guild_id text_channel_id in
  exists w' w'' logged,
    after_play guild_id text_channel_id err w = (Returned tt, w')
    /\ states w' = states w /\ guilds w' = guilds w /\ tasks w' = tasks w
    /\ handoff w' = (handoff w ++ [cb])%list
    /\ trace w' = (trace w ++ logged ++ [CallSoonThreadsafe cb])%list
    /\ logged = match err with
                | Some _ => [Log ("Playback error (guild=" ++ PyStr.of_int guild_id ++ ").")]
                | None => []
                end
    /\ run_callback cb w' = (Returned tt, w'')
    /\ tasks w'' = (tasks w ++ [PlayNextTask guild_id text_channel_id])%list
    /\ states w'' = states w.
Proof.
  intros Hl. cbn zeta.
  unfold run_callback, after_play, call_soon_threadsafe.
  destruct err as [e|]; py_unfold; cbn; rewrite Hl; cbn.
  - eexists _, _, [Log ("Playback error (guild=" ++ PyStr.of_int guild_id ++ ").")].
    split; [reflexivity|].
    rewrite schedule_play_next_running by exact Hl. cbn.
    rewrite <- !app_assoc. repeat split; reflexivity.
  - eexists _, _, []. split; [reflexivity|].
    rewrite schedule_play_next_running by exact Hl. cbn.
    repeat split; reflexivity.
Qed.

Lemma after_play_hands_over_witness :
  exists w' w'' logged,
    after_play 1 (Some 9) (Some (OtherException "broken pipe")) Sample.playing
      = (Returned tt, w')
    /\ states w' = states Sample.playing /\ guilds w' = guilds Sample.playing
    /\ tasks w' = tasks Sample.playing
    /\ handoff w' = (handoff Sample.playing ++ [SchedulePlayNext 1 (Some 9)])%list
    /\ trace w' = (trace Sample.playing ++ logged
                     ++ [CallSoonThreadsafe (SchedulePlayNext 1 (Some 9))])%list
    /\ logged = [Log ("Playback error (guild=" ++ PyStr.of_int 1 ++ ").")]
    /\ run_callback (SchedulePlayNext 1 (Some 9)) w' = (Returned tt, w'')
    /\ tasks w'' = (tasks Sample.playing ++ [PlayNextTask 1 (Some 9)])%list
    /\ states w'' = states Sample.playing.
Proof.
  exact (after_play_hands_over Sample.playing 1 (Some 9)
           (Some (OtherException "broken pipe")) eq_refl).
Defined.

(** ** The queue listing *)

Lemma string_app_assoc (a b c : string) : (a ++ b) ++ c = a ++ b ++ c.
Proof.
  induction a as [|x a IH]; [reflexivity|].
  change (String x ((a ++ b) ++ c) = String x (a ++ b ++ c)).
  rewrite IH. reflexivity.
Qed.

(** The first line of the listing is the volume line. *)
Lemma queue_lines_head (percent : Z) (st : GuildMusicState) :
  exists rest,
    Bot.queue_lines percent st = ("Volume: " ++ PyStr.of_int percent ++ "%") :: rest.
Proof.
  unfold Bot.queue_lines.
  destruct (now_playing st), (queue st); cbn; eexists; reflexivity.
Qed.

Lemma join_head (sep x : string) (rest : list string) :
  exists tail, PyStr.join sep (x :: rest) = x ++ tail.
Proof.
  destruct rest as [|y rest].
  - exists "". induction x as [|c x IH]; [reflexivity|].
    change (String c x = String c (x ++ "")). rewrite <- IH. reflexivity.
  - eexists. reflexivity.
Qed.

(** [/queue] never sends "Queue is empty.", whatever the world and the
    interaction. *)
Lemma queue_cmd_never_says_empty (w : World) (i : Bot.Interaction) :
  exists evs,
    trace (snd (Bot.queue_cmd i w)) = (trace w ++ evs)%list
    /\ ~ In (Followup "Queue is empty.") evs.
Proof.
  unfold Bot.queue_cmd, Bot.followup. py_unfold. cbn.
  destruct (Bot.i_guild i) as [gid|]; cbn.
  - rewrite get_state_eq. cbn. rewrite get_volume_percent_eq. cbn.
    destruct (py_round _) as [p|e]; cbn.
    + destruct (queue_lines_head p
                  (state_of
                     (with_states
                        (insert gid
                           (state_of
                              (with_states (insert gid (state_of
                                 (with_trace (fun t => (t ++ [Defer])%list) w) gid))
                                 (with_trace (fun t => (t ++ [Defer])%list) w)) gid))
                        (with_states (insert gid (state_of
                           (with_trace (fun t => (t ++ [Defer])%list) w) gid))
                           (with_trace (fun t => (t ++ [Defer])%list) w))) gid))
        as [rest Hlines].
      rewrite Hlines. cbn. rewrite <- app_assoc. eexists. split; [reflexivity|].
      intros [H|[H|[]]]; discriminate H.
    + exists [Defer]. split; [reflexivity|]. intros [H|[]]; discriminate H.
  - rewrite <- app_assoc. eexists. split; [reflexivity|].
    intros [H|[H|[]]]; discriminate H.
Qed.

Lemma listing_is_not_the_empty_reply (rest : string) :
  "Queue:" ++ rest <> "Queue is empty.".
Proof. cbv beta iota delta [String.append]. intros H. discriminate H. Qed.

(** A session that never had its volume set plays at 100 percent. *)
Lemma fresh_state_volume : volume fresh_state = int_true_div 100 100.
Proof. vm_compute. reflexivity. Qed.

(** C10.  The list of lines [/queue] builds is never empty: for every
    session state, empty queue and nothing playing included, it begins with
    the volume line.  So in a guild whose volume is [p] percent ([p] of
    [0..200], stored as the program stores it), the command sends one reply,
    the listing, which begins "Queue:\nVolume: p%" and is not
    "Queue is empty.". *)
Theorem queue_cmd_lists_volume (w : World) (i : Bot.Interaction) (guild_id p : Z) :
  Bot.i_guild i = Some guild_id ->
  0 <= p <= 200 ->
  volume (state_of w guild_id) = int_true_div p 100 ->
  (forall percent st, exists rest,
      Bot.queue_lines percent st = ("Volume: " ++ PyStr.of_int percent ++ "%") :: rest)
  /\ exists w' text,
       Bot.queue_cmd i w = (Returned tt, w')
       /\ trace w' = (trace w ++ [Defer; Followup text])%list
       /\ (exists rest,
             text = "Queue:" ++ PyStr.nl ++ "Volume: " ++ PyStr.of_int p ++ "%" ++ rest)
       /\ text <> "Queue is empty.".
Proof.
  intros Hi Hrange Hvol. split; [exact queue_lines_head|].
  pose proof (percent_round_trip p Hrange) as Hp. rewrite <- Hvol in Hp.
  unfold Bot.queue_cmd, Bot.followup. py_unfold. rewrite Hi.
  rewrite get_state_eq. cbn. rewrite get_volume_percent_eq.
  rewrite !state_of_refresh, !state_of_with_trace, Hp. cbv beta iota.
  rewrite ?state_of_insert_eq.
  destruct (queue_lines_head p (state_of w guild_id)) as [lines Hlines].
  rewrite Hlines. cbv beta iota.
  destruct (join_head PyStr.nl ("Volume: " ++ PyStr.of_int p ++ "%") lines) as [tail Htail].
  eexists _, _. split; [reflexivity|]. cbn [snd trace with_trace with_states].
  split; [rewrite <- List.app_assoc; reflexivity|].
  split.
  - rewrite Htail. rewrite !string_app_assoc. eexists. reflexivity.
  - apply listing_is_not_the_empty_reply.
Qed.

Lemma queue_cmd_lists_volume_witness :
  exists w' text,
    Bot.queue_cmd Sample.caller Sample.idle = (Returned tt, w')
    /\ trace w' = (trace Sample.idle ++ [Defer; Followup text])%list
    /\ (exists rest,
          text = "Queue:" ++ PyStr.nl ++ "Volume: " ++ PyStr.of_int 100 ++ "%" ++ rest)
    /\ text <> "Queue is empty.".
Proof.
  exact (proj2 (queue_cmd_lists_volume Sample.idle Sample.caller 1 100
                  eq_refl ltac:(lia) ltac:(reflexivity))).
Defined.


(** * Further properties *)

#[local] Arguments run_task : simpl never.
#[local] Arguments play_next : simpl never.

(** ** Starting a render *)

Lemma played_app (g : Z) (t1 t2 : list Event) :
  played g (t1 ++ t2)%list = (played g t1 ++ played g t2)%list.
Proof.
  induction t1 as [|ev t1 IH]; [reflexivity|].
  destruct ev; cbn; try exact IH.
  destruct (guild_id =? g); cbn; rewrite IH; reflexivity.
Qed.

(** The notification reads the environment only. *)
Lemma send_now_playing_message_frame (tcid : option Z) (track : Track) (w : World) :
  let r := send_now_playing_message tcid track w in
  (exists evs, trace (snd r) = (trace w ++ evs)%list /\ forall g, played g evs = [])
  /\ env (snd r) = env w /\ states (snd r) = states w /\ guilds (snd r) = guilds w
  /\ tasks (snd r) = tasks w /\ handoff (snd r) = handoff w
  /\ loop_running (snd r) = loop_running w
  /\ (forall e, fst r = Raised e -> is_discord_exception e = false)
  /\ (forall w0, env w0 = env w ->
        fst (send_now_playing_message tcid track w0) = fst r).
Proof.
  cbn zeta. unfold send_now_playing_message. py_unfold.
  destruct tcid as [cid|]; cbn.
  - destruct (get_channel (env w) cid) as [[]|] eqn:Hc; cbn.
    all: try destruct (fetch_channel (env w) cid) as [[]|e1] eqn:Hf; cbn.
    all: try destruct (channel_send (env w) cid) as [e2|] eqn:Hs; cbn.
    all: try destruct (is_discord_exception e2) eqn:Hd2; cbn.
    all: try destruct (is_discord_exception e1) eqn:Hd1; cbn.
    all: (split; [first [ exists []; split; [symmetry; apply app_nil_r|reflexivity]
                        | eexists; split; [reflexivity|reflexivity] ]|]).
    all: repeat (split; [reflexivity|]).
    all: (split; [intros e H; try discriminate H; injection H as <-; assumption|]).
    all: intros w0 Hw0; cbn; repeat (progress (rewrite ?Hw0, ?Hc, ?Hf, ?Hs, ?Hd1, ?Hd2; cbn)); reflexivity.
  - split; [exists []; split; [symmetry; apply app_nil_r|reflexivity]|].
    repeat (split; [reflexivity|]). split; [intros e H; discriminate H|reflexivity].
Qed.

(** X1.  With a connected, idle voice client, a track at the head of the
    queue, a stream ffmpeg can open and an encoder that works, [play_next]
    takes the track off the queue and starts one render of its stream URL at
    the session's volume, with a completion callback for this guild and text
    channel; it queues no task.  The now-playing slot holds the track if the
    notification returns; if the notification raises (anything but a
    [DiscordException], which it swallows), [play_next] still returns, the
    render goes on, and the slot is cleared. *)
Theorem play_next_starts_render (w : World) (guild_id : Z) (text_channel_id : option Z)
    (g : Guild) (vc : VoiceClient) (track : Track) (rest : list Track) :
  guilds w !! guild_id = Some g ->
  voice_client g = Voice vc ->
  vc_connected vc = true ->
  vc_player vc = None ->
  queue (state_of w guild_id) = track :: rest ->
  ffmpeg_error (env w) (stream_url track) = None ->
  encoder_error (env w) guild_id = None ->
  exists w',
    play_next guild_id text_channel_id w = (Returned tt, w')
    /\ queue (state_of w' guild_id) = rest
    /\ the_player w' guild_id =
         Some (mkPlayer (stream_url track) (volume (state_of w guild_id)) false
                 (guild_id, text_channel_id))
    /\ played guild_id (trace w') = (played guild_id (trace w) ++ [stream_url track])%list
    /\ tasks w' = tasks w /\ handoff w' = handoff w
    /\ (fst (send_now_playing_message text_channel_id track w) = Returned tt ->
        now_playing (state_of w' guild_id) = Some track)
    /\ (forall e, fst (send_now_playing_message text_channel_id track w) = Raised e ->
        now_playing (state_of w' guild_id) = None
        /\ exists t, trace w' = (t ++ [NowPlayingSet guild_id None;
                                       Log "Unexpected error in play_next."])%list).
Proof.
  intros Hg Hv Hc Hp Hq Hf He.
  unfold play_next, take_next, make_source, vc_play, update_voice, the_player.
  unfold mbind at 1, py_bind at 1. rewrite get_state_eq.
  py_unfold. unfold guild_voice, is_playing, is_paused. cbn.
  repeat (progress (rewrite ?Hg, ?Hv, ?Hc, ?Hp, ?Hf, ?He, ?state_of_with_trace,
                      ?state_of_with_guilds, ?state_of_insert_eq, ?Hq; cbn)).
  match goal with
  | |- context [send_now_playing_message text_channel_id track ?W] => set (w1 := W)
  end.
  pose proof (send_now_playing_message_frame text_channel_id track w1)
    as ((evs & Ft & Fp) & Fe & Fs & Fg & Fta & Fh & Fl & Fd & Fo).
  cbn zeta in *.
  specialize (Fo w eq_refl).
  destruct (send_now_playing_message text_channel_id track w1) as [[[]|e] w2]; cbn in *.
  all: assert (the_player w2 guild_id =
                 Some (mkPlayer (stream_url track) (volume (state_of w guild_id)) false
                         (guild_id, text_channel_id))) as Hpl
         by (unfold the_player, guild_voice; rewrite Fg, lookup_alter_eq, Hg; cbn;
             rewrite Hv; reflexivity).
  all: assert (played guild_id (trace w2)
               = (played guild_id (trace w) ++ [stream_url track])%list) as Hpd
         by (rewrite Ft, !played_app, Fp; cbn; rewrite Z.eqb_refl, !app_nil_r; reflexivity).
  - assert (state_of w2 guild_id
            = mkState rest (Some track) (volume (state_of w guild_id))) as Hst
      by (unfold state_of at 1; rewrite Fs, lookup_insert_eq; reflexivity).
    exists w2. rewrite Hst. cbn.
    do 6 (split; [assumption || reflexivity|]). split; [reflexivity|].
    intros e H. rewrite H in Fo. discriminate Fo.
  - eexists. split; [reflexivity|]. rewrite !state_of_with_trace, state_of_insert_eq.
    assert (queue (state_of w2 guild_id) = rest) as Hst
      by (unfold state_of at 1; rewrite Fs, lookup_insert_eq; reflexivity).
    cbn. rewrite Fta, Fh, Hst.
    split; [reflexivity|]. split; [|split; [|split; [reflexivity|split; [reflexivity|split]]]].
    + unfold the_player, guild_voice in *. cbn. exact Hpl.
    + rewrite !played_app, Hpd. cbn. rewrite !app_nil_r. reflexivity.
    + intros H. rewrite H in Fo. discriminate Fo.
    + intros e' _. split; [reflexivity|]. eexists. rewrite <- app_assoc. reflexivity.
Qed.

Lemma play_next_starts_render_witness :
  let w := Sample.world Sample.env Sample.vc_idle [Sample.track_a; Sample.track_b] None in
  exists w',
    play_next 1 (Some 9) w = (Returned tt, w')
    /\ queue (state_of w' 1) = [Sample.track_b]
    /\ the_player w' 1 = Some (mkPlayer "https://cdn/a" 1%float false (1, Some 9))
    /\ played 1 (trace w') = ["https://cdn/a"]
    /\ now_playing (state_of w' 1) = Some Sample.track_a.
Proof.
  destruct (play_next_starts_render
              (Sample.world Sample.env Sample.vc_idle [Sample.track_a; Sample.track_b] None)
              1 (Some 9) (mkGuild (Voice Sample.vc_idle)) Sample.vc_idle
              Sample.track_a [Sample.track_b]
              eq_refl eq_refl eq_refl eq_refl eq_refl eq_refl eq_refl)
    as (w' & H1 & H2 & H3 & H4 & _ & _ & H7 & _).
  exists w'. repeat split; try assumption. apply H7. reflexivity.
Defined.

(** ** Serving the queue *)

Ltac norm_state :=
  repeat (progress (rewrite ?state_of_with_trace, ?state_of_with_guilds,
                      ?state_of_with_tasks, ?state_of_with_handoff,
                      ?state_of_with_finished,
                      ?state_of_insert_eq; cbn [queue now_playing volume])).

Lemma guild_voice_inv (w : World) (guild_id : Z) (vc : VoiceClient) :
  guild_voice w guild_id = Voice vc ->
  exists g, guilds w !! guild_id = Some g /\ voice_client g = Voice vc.
Proof.
  unfold guild_voice. destruct (guilds w !! guild_id) as [g|]; [|discriminate].
  intros H. exists g. split; [reflexivity|exact H].
Qed.

(** The head of the queue goes to an idle, connected voice client. *)
Lemma play_next_renders_head (w : World) (guild_id : Z) (text_channel_id : option Z)
    (vc : VoiceClient) (track : Track) (rest : list Track) :
  guild_voice w guild_id = Voice vc ->
  vc_connected vc = true ->
  vc_player vc = None ->
  queue (state_of w guild_id) = track :: rest ->
  ffmpeg_error (env w) (stream_url track) = None ->
  encoder_error (env w) guild_id = None ->
  exists w',
    play_next guild_id text_channel_id w = (Returned tt, w')
    /\ queue (state_of w' guild_id) = rest
    /\ volume (state_of w' guild_id) = volume (state_of w guild_id)
    /\ guild_voice w' guild_id =
         Voice (mkVoice true (vc_channel vc)
                  (Some (mkPlayer (stream_url track) (volume (state_of w guild_id)) false
                           (guild_id, text_channel_id))))
    /\ played guild_id (trace w') = (played guild_id (trace w) ++ [stream_url track])%list
    /\ tasks w' = tasks w /\ handoff w' = handoff w
    /\ exists evs, trace w' = (trace w ++ evs)%list.
Proof.
  intros Hgv Hc Hp Hq Hf He.
  destruct (guild_voice_inv w guild_id vc Hgv) as (g & Hg & Hv).
  unfold play_next, take_next, make_source, vc_play, update_voice, the_player.
  unfold mbind at 1, py_bind at 1. rewrite get_state_eq.
  py_unfold. unfold guild_voice, is_playing, is_paused. cbn.
  repeat (progress (rewrite ?Hg, ?Hv, ?Hc, ?Hp, ?Hf, ?He, ?state_of_with_trace,
                      ?state_of_with_guilds, ?state_of_insert_eq, ?Hq; cbn)).
  match goal with
  | |- context [send_now_playing_message text_channel_id track ?W] => set (w1 := W)
  end.
  pose proof (send_now_playing_message_frame text_channel_id track w1)
    as ((evs & Ft & Fp) & Fe & Fs & Fg & Fta & Fh & Fl & Fd & Fo).
  cbn zeta in *.
  destruct (send_now_playing_message text_channel_id track w1) as [[[]|e] w2]; cbn in *.
  all: assert (guild_voice w2 guild_id =
                 Voice (mkVoice true (vc_channel vc)
                   (Some (mkPlayer (stream_url track) (volume (state_of w guild_id)) false
                         (guild_id, text_channel_id))))) as Hpl
         by (unfold guild_voice; rewrite Fg, lookup_alter_eq, Hg; cbn;
             rewrite Hv; unfold set_player; rewrite Hc; reflexivity).
  all: assert (played guild_id (trace w2)
               = (played guild_id (trace w) ++ [stream_url track])%list) as Hpd
         by (rewrite Ft, !played_app, Fp; cbn; rewrite Z.eqb_refl, !app_nil_r; reflexivity).
  all: assert (state_of w2 guild_id
            = mkState rest (Some track) (volume (state_of w guild_id))) as Hst
      by (unfold state_of at 1; rewrite Fs, lookup_insert_eq; reflexivity).
  - exists w2. rewrite Hst. cbn.
    do 7 (split; [assumption || reflexivity|]).
    rewrite Ft. cbn. rewrite <- !List.app_assoc. eexists. reflexivity.
  - eexists. split; [reflexivity|]. rewrite !state_of_with_trace, state_of_insert_eq.
    cbn. rewrite Fta, Fh, Hst. cbn.
    split; [reflexivity|]. split; [reflexivity|].
    split; [unfold guild_voice in *; cbn; exact Hpl|].
    split; [|split; [reflexivity|split; [reflexivity|]]].
    + rewrite !played_app, Hpd. cbn. rewrite !app_nil_r. reflexivity.
    + rewrite Ft. cbn. rewrite <- !List.app_assoc. eexists. reflexivity.
Qed.









(** ** What the advance leaves alone *)

(** X3.  Without a [discord.VoiceClient] in the guild (no guild, no voice
    client, or another voice protocol), [play_next] clears the now-playing
    slot and does nothing else: the queue keeps every track, nothing is
    rendered and nothing is scheduled. *)
Theorem play_next_without_voice_keeps_queue (w : World) (guild_id : Z)
    (text_channel_id : option Z) :
  (forall vc, guild_voice w guild_id <> Voice vc) ->
  exists w',
    play_next guild_id text_channel_id w = (Returned tt, w')
    /\ queue (state_of w' guild_id) = queue (state_of w guild_id)
    /\ now_playing (state_of w' guild_id) = None
    /\ guilds w' = guilds w /\ tasks w' = tasks w /\ handoff w' = handoff w
    /\ trace w' = (trace w ++ [NowPlayingSet guild_id None])%list.
Proof.
  intros Hno.
  unfold play_next. unfold mbind at 1, py_bind at 1. rewrite get_state_eq.
  py_unfold. cbn.
  change (guild_voice (with_states <[guild_id:=state_of w guild_id]> w) guild_id)
    with (guild_voice w guild_id).
  destruct (guild_voice w guild_id) as [| |vc] eqn:Hv; [| |exfalso; exact (Hno vc eq_refl)];
    cbn; (eexists; split; [reflexivity|]); cbn; norm_state;
    repeat split; reflexivity.
Qed.

Lemma play_next_without_voice_keeps_queue_witness :
  exists w',
    play_next 1 None Scene.no_guild = (Returned tt, w')
    /\ queue (state_of w' 1) = [Sample.track_a]
    /\ now_playing (state_of w' 1) = None
    /\ guilds w' = guilds Scene.no_guild /\ tasks w' = tasks Scene.no_guild
    /\ handoff w' = handoff Scene.no_guild
    /\ trace w' = (trace Scene.no_guild ++ [NowPlayingSet 1 None])%list.
Proof.
  apply (play_next_without_voice_keeps_queue Scene.no_guild 1 None).
  intros vc H. vm_compute in H. discriminate H.
Defined.

(** X4.  Whatever happens inside it, [play_next] for one guild leaves every
    other guild's session and voice client as they were, never changes the
    session's volume, takes at most the head off the queue, and removes no
    entry from the registry. *)
Theorem play_next_touches_one_session (w : World) (guild_id : Z)
    (text_channel_id : option Z) :
  let w' := snd (play_next guild_id text_channel_id w) in
  (forall g, g <> guild_id -> state_of w' g = state_of w g)
  /\ (forall g, g <> guild_id -> guild_voice w' g = guild_voice w g)
  /\ volume (state_of w' guild_id) = volume (state_of w guild_id)
  /\ (queue (state_of w' guild_id) = queue (state_of w guild_id)
      \/ queue (state_of w' guild_id) = tl (queue (state_of w guild_id)))
  /\ (forall g, is_Some (states w !! g) -> is_Some (states w' !! g)).
Proof.
  set (r := play_next guild_id text_channel_id w). cbn zeta.
  enough (exists w', r = (Returned tt, w')
    /\ (forall g, g <> guild_id -> states w' !! g = states w !! g)
    /\ (forall g, g <> guild_id -> guilds w' !! g = guilds w !! g)
    /\ volume (state_of w' guild_id) = volume (state_of w guild_id)
    /\ (queue (state_of w' guild_id) = queue (state_of w guild_id)
        \/ queue (state_of w' guild_id) = tl (queue (state_of w guild_id)))
    /\ is_Some (states w' !! guild_id))
    as (w' & -> & Hs & Hg & Hv & Hq & Hk).
  { cbn. split; [intros g Hne; unfold state_of; rewrite Hs by exact Hne; reflexivity|].
    split; [intros g Hne; unfold guild_voice; rewrite Hg by exact Hne; reflexivity|].
    split; [exact Hv|]. split; [exact Hq|].
    intros g Hsome. destruct (decide (g = guild_id)) as [->|Hne];
      [exact Hk|rewrite Hs by exact Hne; exact Hsome]. }
  unfold r, play_next, take_next, make_source, vc_play, send_now_playing_message,
    _schedule_play_next, create_task, update_voice.
  unfold mbind at 1, py_bind at 1. rewrite get_state_eq.
  py_unfold. cbn.
  case_all.
  all: (eexists; split; [reflexivity|]); cbn; norm_state.
  all: repeat split.
  all: try (intros g Hne; rewrite ?lookup_alter_ne, ?lookup_insert_ne by congruence;
            reflexivity).
  all: try (rewrite !lookup_insert_eq; eexists; reflexivity).
  all: try reflexivity.
  all: try (left; reflexivity).
  all: match goal with
       | H : queue _ = _ |- _ =>
           rewrite state_of_with_trace, state_of_refresh in H; rewrite H
       end; first [left; reflexivity | right; reflexivity].
Qed.

(** ** Volume, notices and extraction *)

(** X5.  Setting the volume and then applying it, as [/volume] does: the
    session stores the clamped percent as a fraction, its queue and
    now-playing slot are untouched, and the answer is [True] exactly when the
    guild's voice client holds a source, that of a live player or the one a
    finished render left behind.  A live player's volume becomes the same
    fraction, its stream, pause flag and callback unchanged; without a live
    player no voice client changes. *)
Theorem volume_reaches_live_render (w : World) (guild_id percent : Z) :
  let clamped := Z.max 0 (Z.min 200 percent) in
  exists w' applied,
    (set_volume_percent guild_id percent;; apply_volume_to_active guild_id) w
      = (Returned applied, w')
    /\ applied = has_source w guild_id
    /\ volume (state_of w' guild_id) = int_true_div clamped 100
    /\ queue (state_of w' guild_id) = queue (state_of w guild_id)
    /\ now_playing (state_of w' guild_id) = now_playing (state_of w guild_id)
    /\ match the_player w guild_id with
       | Some p =>
           the_player w' guild_id =
             Some (mkPlayer (pl_stream_url p) (int_true_div clamped 100)
                     (pl_paused p) (pl_after p))
       | None => guilds w' = guilds w
       end.
Proof.
  cbn zeta. unfold set_volume_percent, apply_volume_to_active, update_voice, the_player,
    has_source, holds_finished, guild_voice.
  py_unfold. rewrite get_state_eq. cbn.
  destruct (guilds w !! guild_id) as [g|] eqn:Hg; cbn;
    [destruct (voice_client g) as [| |vc] eqn:Hv; cbn;
     [| |destruct (vc_player vc) as [p|] eqn:Hp; cbn;
         [rewrite get_state_eq; cbn
         |destruct (existsb (Z.eqb guild_id) (finished w)) eqn:Hk; cbn;
          [rewrite get_state_eq; cbn|]]]|];
    (eexists _, _; split; [reflexivity|]); cbn; norm_state;
    repeat split; try reflexivity.
  rewrite lookup_alter_eq, Hg. cbn. rewrite Hv. reflexivity.
Qed.

(** X6.  [send_now_playing_message] changes no session, voice client, task or
    handoff and renders nothing; it never lets a [DiscordException] escape;
    and without a text channel it does nothing at all. *)
Theorem now_playing_notice_is_best_effort (text_channel_id : option Z) (track : Track)
    (w : World) :
  let r := send_now_playing_message text_channel_id track w in
  states (snd r) = states w /\ guilds (snd r) = guilds w
  /\ tasks (snd r) = tasks w /\ handoff (snd r) = handoff w
  /\ (forall e, fst r = Raised e -> is_discord_exception e = false)
  /\ (forall g, played g (trace (snd r)) = played g (trace w))
  /\ (text_channel_id = None -> trace (snd r) = trace w /\ fst r = Returned tt).
Proof.
  pose proof (send_now_playing_message_frame text_channel_id track w)
    as ((evs & Ft & Fp) & Fe & Fs & Fg & Fta & Fh & Fl & Fd & Fo).
  cbn zeta in *. do 5 (split; [assumption|]). split.
  - intros g. rewrite Ft, played_app, Fp, app_nil_r. reflexivity.
  - intros ->. split; reflexivity.
Qed.

(** X7.  Whatever yt-dlp does, an exception out of [extract_track] is a
    [RuntimeError] carrying one of the seven messages of the source. *)
Theorem extract_track_raises_runtime_errors (ydl : YdlOutcome) (query requester : string)
    (e : PyExn) :
  extract_track ydl query requester = Raised e ->
  exists m, e = RuntimeError m /\ In m extraction_messages.
Proof.
  unfold extract_track, ydl_info, resolve_entries, track_of_info, extraction_messages.
  intros H.
  repeat match type of H with
         | context [match ?x with _ => _ end] =>
             lazymatch x with
             | context [match _ with _ => _ end] => fail
             | _ => destruct x eqn:?
             end
         end;
    try discriminate H; injection H as <-; eexists; (split; [reflexivity|]); cbn; tauto.
Qed.

Lemma extract_track_raises_runtime_errors_witness :
  exists m, RuntimeError msg_unexpected_youtube = RuntimeError m
            /\ In m extraction_messages.
Proof.
  exact (extract_track_raises_runtime_errors (YdlRaisesOther "connection reset")
           "q" "alice" (RuntimeError msg_unexpected_youtube) eq_refl).
Defined.

(** X8.  For a result with an [entries] list, the track is built from the
    first entry that is a dict: entries before it that are no dicts are
    passed over, every entry after it is ignored, and the outer dict's own
    title and URLs play no part.  In particular the stream URL is that
    entry's, when it is a non-empty string. *)
Theorem extract_track_uses_first_entry (fields : list (string * PyVal))
    (before after : list PyVal) (entry_fields : list (string * PyVal))
    (query requester : string) :
  dict_get "entries" fields = Some (PyList (before ++ PyDict entry_fields :: after)) ->
  (forall v, In v before -> forall f, v <> PyDict f) ->
  extract_track (YdlReturns (PyDict fields)) query requester
  = track_of_info (PyDict entry_fields) query requester
  /\ forall url,
       dict_get "url" entry_fields = Some (PyStrV url) -> url <> "" ->
       exists track,
         extract_track (YdlReturns (PyDict fields)) query requester = Returned track
         /\ stream_url track = url /\ requested_by track = requester.
Proof.
  intros Hentries Hbefore.
  assert (first_dict (before ++ PyDict entry_fields :: after) = Some (PyDict entry_fields))
    as Hfirst.
  { clear Hentries. induction before as [|v before IH]; [reflexivity|].
    assert (forall v', In v' before -> forall f, v' <> PyDict f) as Hrest
      by (intros v' Hin; apply Hbefore; right; exact Hin).
    destruct v; cbn; try (exact (IH Hrest)).
    exfalso. eapply Hbefore; [left; reflexivity|reflexivity]. }
  assert (extract_track (YdlReturns (PyDict fields)) query requester
          = track_of_info (PyDict entry_fields) query requester) as Heq.
  { unfold extract_track, resolve_entries. cbn. rewrite Hentries, Hfirst. reflexivity. }
  split; [exact Heq|].
  intros url Hurl Hne. rewrite Heq. unfold track_of_info. rewrite Hurl.
  destruct url as [|c url]; [congruence|]. cbn.
  eexists. split; [reflexivity|]. split; reflexivity.
Qed.

Lemma extract_track_uses_first_entry_witness :
  extract_track
    (YdlReturns
       (PyDict [("title", PyStrV "Mix"); ("url", PyStrV "https://cdn/mix");
                ("entries",
                 PyList [PyNone; PyStrV "x";
                         PyDict [("title", PyStrV "One"); ("url", PyStrV "https://cdn/1")];
                         PyDict [("title", PyStrV "Two"); ("url", PyStrV "https://cdn/2")]])]))
    "q" "alice"
  = Returned (mkTrack "One" "q" "https://cdn/1" "alice").
Proof.
  exact (proj1 (extract_track_uses_first_entry
           [("title", PyStrV "Mix"); ("url", PyStrV "https://cdn/mix");
            ("entries",
             PyList [PyNone; PyStrV "x";
                     PyDict [("title", PyStrV "One"); ("url", PyStrV "https://cdn/1")];
                     PyDict [("title", PyStrV "Two"); ("url", PyStrV "https://cdn/2")]])]
           [PyNone; PyStrV "x"]
           [PyDict [("title", PyStrV "Two"); ("url", PyStrV "https://cdn/2")]]
           [("title", PyStrV "One"); ("url", PyStrV "https://cdn/1")]
           "q" "alice" eq_refl
           ltac:(intros v [<-|[<-|[]]] f; discriminate))).
Defined.

(** ** Resume and the read-only routes *)

(** X9.  Resume on a connected voice client, by HTTP route and by slash
    command: a paused render plays again and the answer is "Resumed."; a
    render that plays is left alone with the message "Playback is already
    running."; with no render nothing changes, the route raises the 409
    conflict and the command replies "Nothing is paused.".  The session's
    state is never touched. *)
Theorem resume_outcomes (w : World) (guild_id : Z) (g : Guild)
    (vc : VoiceClient) (i : Bot.Interaction) :
  guilds w !! guild_id = Some g ->
  voice_client g = Voice vc ->
  vc_connected vc = true ->
  Bot.i_guild i = Some guild_id ->
  (is_paused vc = true ->
   exists wa wb vc',
     Http.resume guild_id w = (Returned "Resumed.", wa)
     /\ Slash.resume i w = (Returned tt, wb)
     /\ guild_voice wa guild_id = Voice vc' /\ guild_voice wb guild_id = Voice vc'
     /\ is_playing vc' = true /\ is_paused vc' = false
     /\ states wa = states w /\ states wb = states w
     /\ trace wa = (trace w ++ [VcResume guild_id])%list
     /\ trace wb = (trace w ++ [Defer; VcResume guild_id; Followup "Resumed."])%list)
  /\ (is_playing vc = true ->
      Http.resume guild_id w = (Returned "Playback is already running.", w)
      /\ Slash.resume i w =
         (Returned tt,
          with_trace
            (fun t => ((t ++ [Defer]) ++ [Followup "Playback is already running."])%list) w))
  /\ (is_playing vc = false -> is_paused vc = false ->
      Http.resume guild_id w = (Raised resume_conflict, w)
      /\ Slash.resume i w =
         (Returned tt,
          with_trace (fun t => ((t ++ [Defer]) ++ [Followup "Nothing is paused."])%list) w)).
Proof.
  intros Hg Hv Hc Hi.
  unfold Http.resume, Slash.resume, Api._ensure_guild, Api._connected_voice_client,
    Bot.connected_voice, Bot.interaction_voice, Bot.followup, vc_resume,
    the_player, update_voice, is_playing, is_paused, resume_conflict.
  rewrite Hi. py_unfold. unfold guild_voice. cbn.
  destruct (vc_player vc) as [p|] eqn:Hp; cbn;
    [destruct (pl_paused p) eqn:Hpp; cbn|];
    repeat (progress (rewrite ?Hg, ?Hv, ?Hc, ?Hp, ?Hpp; cbn));
    (split; [intros H; try discriminate H
            |split; [intros H; try discriminate H|intros H H'; try discriminate]]).
  - eexists _, _, _. split; [reflexivity|]. split; [reflexivity|]. cbn.
    rewrite !lookup_alter_eq, Hg. cbn. rewrite Hv. cbn.
    rewrite <- !app_assoc. cbn. repeat split; reflexivity.
  - split; reflexivity.
  - split; reflexivity.
Qed.

Lemma resume_outcomes_witness :
  exists wa wb vc',
    Http.resume 1 Sample.paused = (Returned "Resumed.", wa)
    /\ Slash.resume Sample.caller Sample.paused = (Returned tt, wb)
    /\ guild_voice wa 1 = Voice vc' /\ guild_voice wb 1 = Voice vc'
    /\ is_playing vc' = true /\ is_paused vc' = false
    /\ states wa = states Sample.paused /\ states wb = states Sample.paused
    /\ trace wa = (trace Sample.paused ++ [VcResume 1])%list
    /\ trace wb = (trace Sample.paused ++ [Defer; VcResume 1; Followup "Resumed."])%list.
Proof.
  exact (proj1 (resume_outcomes Sample.paused 1 (mkGuild (Voice Sample.vc_paused))
                  Sample.vc_paused Sample.caller eq_refl eq_refl eq_refl eq_refl)
           eq_refl).
Defined.

(** X10.  Pausing a playing render and resuming it through the HTTP routes
    gives back exactly the voice clients, sessions, tasks and handoff queue
    there were; only the two calls show in the trace. *)
Theorem pause_then_resume_restores (w : World) (guild_id : Z) (g : Guild)
    (vc : VoiceClient) :
  guilds w !! guild_id = Some g ->
  voice_client g = Voice vc ->
  vc_connected vc = true ->
  is_playing vc = true ->
  exists w',
    (Api.pause guild_id;; Http.resume guild_id) w = (Returned "Resumed.", w')
    /\ guilds w' = guilds w
    /\ states w' = states w
    /\ tasks w' = tasks w /\ handoff w' = handoff w
    /\ trace w' = (trace w ++ [VcPause guild_id; VcResume guild_id])%list.
Proof.
  intros Hg Hv Hc Hplay.
  unfold is_playing in Hplay.
  destruct (vc_player vc) as [p|] eqn:Hp; [|discriminate Hplay].
  apply negb_true_iff in Hplay.
  unfold Api.pause, Http.resume, Api._ensure_guild, Api._connected_voice_client,
    vc_pause, vc_resume, the_player, update_voice, is_playing, is_paused.
  py_unfold. unfold guild_voice. cbn.
  repeat (progress (rewrite ?Hg, ?Hv, ?Hc, ?Hp, ?Hplay, ?lookup_alter_eq; cbn)).
  eexists. split; [reflexivity|]. cbn. rewrite <- app_assoc.
  repeat split; try reflexivity.
  rewrite alter_alter_eq. apply alter_id. intros g' Hg'.
  rewrite Hg in Hg'. injection Hg' as <-. cbn. rewrite Hv. cbn.
  destruct g as [v], vc as [c ch pl], p as [u vol pa af]. cbn in *. subst. reflexivity.
Qed.

Lemma pause_then_resume_restores_witness :
  exists w',
    (Api.pause 1;; Http.resume 1) Sample.playing = (Returned "Resumed.", w')
    /\ guilds w' = guilds Sample.playing
    /\ states w' = states Sample.playing
    /\ tasks w' = tasks Sample.playing /\ handoff w' = handoff Sample.playing
    /\ trace w' = (trace Sample.playing ++ [VcPause 1; VcResume 1])%list.
Proof.
  exact (pause_then_resume_restores Sample.playing 1 (mkGuild (Voice Sample.vc_playing))
           Sample.vc_playing eq_refl eq_refl eq_refl eq_refl).
Defined.

(** X11.  For a guild the bot does not know, the pause, resume, skip, stop,
    queue and play routes all raise the same 404 and leave the world exactly
    as it was: no registry entry is created, nothing is cleared, no voice
    connection is attempted. *)
Theorem unknown_guild_changes_nothing (d : Http.Directory) (guild_id : Z)
    (payload : Http.PlayRequest) (w : World) :
  guilds w !! guild_id = None ->
  Api.pause guild_id w = (Raised (unknown_guild guild_id), w)
  /\ Http.resume guild_id w = (Raised (unknown_guild guild_id), w)
  /\ Api.skip guild_id w = (Raised (unknown_guild guild_id), w)
  /\ Api.stop guild_id w = (Raised (unknown_guild guild_id), w)
  /\ Http.get_queue guild_id w = (Raised (unknown_guild guild_id), w)
  /\ Http.play d guild_id payload w = (Raised (unknown_guild guild_id), w).
Proof.
  intros Hg.
  unfold Api.pause, Http.resume, Api.skip, Api.stop, Http.get_queue, Http.play,
    Api._ensure_guild, unknown_guild.
  py_unfold. cbn. rewrite Hg. repeat split; reflexivity.
Qed.

Lemma unknown_guild_changes_nothing_witness :
  Api.stop 2 Sample.playing = (Raised (unknown_guild 2), Sample.playing)
  /\ Http.play Scene.directory 2 Scene.request Sample.playing
     = (Raised (unknown_guild 2), Sample.playing).
Proof.
  destruct (unknown_guild_changes_nothing Scene.directory 2 Scene.request Sample.playing
              eq_refl) as (_ & _ & _ & Hstop & _ & Hplay).
  split; assumption.
Defined.

(** X12.  In a guild the bot knows, with the volume at [p] percent, the queue
    route answers with [p], the now-playing track and the queued tracks in
    queue order (title, page URL and requester of each), and changes nothing
    but the trace, where the lock is taken and released. *)
Theorem get_queue_is_a_snapshot (w : World) (guild_id p : Z) (g : Guild) :
  guilds w !! guild_id = Some g ->
  0 <= p <= 200 ->
  volume (state_of w guild_id) = int_true_div p 100 ->
  exists w',
    Http.get_queue guild_id w
      = (Returned (Http.mkQueueResponse guild_id p
                     (option_map Http._track_payload (now_playing (state_of w guild_id)))
                     (map Http._track_payload (queue (state_of w guild_id)))),
         w')
    /\ (forall g', state_of w' g' = state_of w g')
    /\ guilds w' = guilds w /\ tasks w' = tasks w /\ handoff w' = handoff w
    /\ trace w' = (trace w ++ [Acquire guild_id; Release guild_id])%list.
Proof.
  intros Hg Hrange Hvol.
  pose proof (percent_round_trip p Hrange) as Hp. rewrite <- Hvol in Hp.
  unfold Http.get_queue, Api._ensure_guild. py_unfold. cbn. rewrite Hg.
  rewrite get_state_eq. cbn. rewrite get_volume_percent_eq.
  norm_state. rewrite ?state_of_refresh, Hp.
  eexists. split; [reflexivity|]. cbn. rewrite <- app_assoc.
  repeat split; try reflexivity.
  intros g'. rewrite !state_of_insert, !state_of_with_trace, state_of_insert.
  destruct (decide (guild_id = g')); subst; reflexivity.
Qed.

Lemma get_queue_is_a_snapshot_witness :
  exists w',
    Http.get_queue 1 Sample.playing
      = (Returned (Http.mkQueueResponse 1 100
                     (Some (Http.mkTrackPayload "A" "https://page/a" "alice"))
                     [Http.mkTrackPayload "B" "https://page/b" "bob"]),
         w')
    /\ (forall g', state_of w' g' = state_of Sample.playing g')
    /\ guilds w' = guilds Sample.playing /\ tasks w' = tasks Sample.playing
    /\ handoff w' = handoff Sample.playing
    /\ trace w' = (trace Sample.playing ++ [Acquire 1; Release 1])%list.
Proof.
  exact (get_queue_is_a_snapshot Sample.playing 1 100 (mkGuild (Voice Sample.vc_playing))
           eq_refl ltac:(lia) ltac:(reflexivity)).
Defined.

(** ** The play route and the voice connection *)


(** [_ensure_voice_connection] reads and writes voice clients only. *)
Lemma ensure_voice_connection_frame (d : Http.Directory) (guild_id : Z)
    (voice_channel_id : option Z) (w : World) :
  let r := Http._ensure_voice_connection d guild_id voice_channel_id w in
  env (snd r) = env w /\ states (snd r) = states w
  /\ tasks (snd r) = tasks w /\ handoff (snd r) = handoff w.
Proof.
  cbn zeta.
  unfold Http._ensure_voice_connection, Api._connected_voice_client,
    Http._load_voice_channel, Http.vc_move_to, Http.channel_connect, update_voice.
  py_unfold. cbn.
  case_all; repeat split; reflexivity.
Qed.

(** X13.  Whenever the play route returns, the [queue_length] it reports is
    the length the queue had before the request plus one, also when the
    track was started at once and the queue is shorter again by then; the
    track in the answer is the one extracted for the request. *)
Theorem play_reports_length_after_append (d : Http.Directory) (guild_id : Z)
    (payload : Http.PlayRequest) (w w' : World) (resp : Http.PlayResponse) :
  Http.play d guild_id payload w = (Returned resp, w') ->
  exists track,
    extract_track (ydl (env w) (Http.rq_query payload)) (Http.rq_query payload)
      (Http.rq_requested_by payload) = Returned track
    /\ resp = Http.mkPlayResponse "Track queued." guild_id
                (Z.of_nat (length (queue (state_of w guild_id))) + 1)
                (Http._track_payload track).
Proof.
  unfold Http.play, Api._ensure_guild.
  pose proof (ensure_voice_connection_frame d guild_id (Http.rq_voice_channel_id payload))
    as Hframe.
  py_unfold. cbn.
  destruct (guilds w !! guild_id) as [g|]; cbn; [|discriminate].
  specialize (Hframe w). cbn zeta in Hframe. destruct Hframe as (Fe & Fs & _ & _).
  destruct (Http._ensure_voice_connection d guild_id (Http.rq_voice_channel_id payload) w)
    as [[[]|e] w1]; cbn in *; [|discriminate].
  rewrite Fe.
  destruct (extract_track _ _ _) as [track|e]; cbn; [|discriminate].
  rewrite get_state_eq. cbn. norm_state.
  assert (state_of w1 guild_id = state_of w guild_id) as Hst
    by (unfold state_of; rewrite Fs; reflexivity).
  rewrite Hst.
  match goal with
  | |- context [guild_voice ?W guild_id] => destruct (guild_voice W guild_id) as [| |vc]
  end; cbn.
  3: destruct (negb (is_playing vc) && negb (is_paused vc))%bool; cbn.
  3: match goal with
     | |- context [play_next ?G ?T ?W] =>
         pose proof (play_next_never_raises W G T) as Hnr;
         destruct (play_next G T W) as [[[]|e] w2]; cbn in *; [|discriminate Hnr]
     end.
  all: intros [= <- <-]; exists track; split; [reflexivity|];
       rewrite length_app; cbn; rewrite Nat2Z.inj_add; reflexivity.
Qed.

Lemma play_reports_length_after_append_witness :
  exists track,
    extract_track (ydl (env Sample.idle) "song") "song" "Control Panel" = Returned track
    /\ Http.mkPlayResponse "Track queued." 1 1
         (Http.mkTrackPayload "song" "song" "Control Panel")
       = Http.mkPlayResponse "Track queued." 1
           (Z.of_nat (length (queue (state_of Sample.idle 1))) + 1)
           (Http._track_payload track).
Proof.
  exact (play_reports_length_after_append Scene.directory 1 Scene.request Sample.idle
           (snd (Http.play Scene.directory 1 Scene.request Sample.idle))
           (Http.mkPlayResponse "Track queued." 1 1
              (Http.mkTrackPayload "song" "song" "Control Panel"))
           ltac:(vm_compute; reflexivity)).
Defined.

(** X14.  While a render is playing or paused on the connected voice client,
    a play request without a voice channel id appends the extracted track at
    the back of the queue and does nothing else: the now-playing slot, the
    voice clients and the loop's queues are as before and no render is
    started. *)
Theorem play_route_queues_behind_render (d : Http.Directory) (guild_id : Z)
    (payload : Http.PlayRequest) (w : World) (g : Guild) (vc : VoiceClient)
    (track : Track) :
  guilds w !! guild_id = Some g ->
  voice_client g = Voice vc ->
  vc_connected vc = true ->
  (is_playing vc || is_paused vc)%bool = true ->
  Http.rq_voice_channel_id payload = None ->
  extract_track (ydl (env w) (Http.rq_query payload)) (Http.rq_query payload)
    (Http.rq_requested_by payload) = Returned track ->
  exists w',
    Http.play d guild_id payload w
      = (Returned (Http.mkPlayResponse "Track queued." guild_id
                     (Z.of_nat (length (queue (state_of w guild_id))) + 1)
                     (Http._track_payload track)), w')
    /\ queue (state_of w' guild_id) = (queue (state_of w guild_id) ++ [track])%list
    /\ now_playing (state_of w' guild_id) = now_playing (state_of w guild_id)
    /\ guilds w' = guilds w /\ tasks w' = tasks w /\ handoff w' = handoff w
    /\ trace w' = (trace w ++ [Acquire guild_id; QueueAppend guild_id track;
                               Release guild_id])%list.
Proof.
  intros Hg Hv Hc Hact Hnone Hex.
  unfold Http.play, Api._ensure_guild, Http._ensure_voice_connection,
    Api._connected_voice_client.
  py_unfold. unfold guild_voice. cbn.
  repeat (progress (rewrite ?Hg, ?Hv, ?Hc, ?Hnone, ?Hex; cbn)).
  rewrite get_state_eq. cbn. norm_state.
  repeat (progress (rewrite ?Hg, ?Hv, ?Hc; cbn)).
  assert (negb (is_playing vc) && negb (is_paused vc) = false)%bool as Hn
    by (destruct (is_playing vc), (is_paused vc); cbn in *; congruence).
  rewrite Hn. cbn.
  eexists. split; [rewrite length_app, Nat2Z.inj_add; reflexivity|].
  cbn. norm_state. rewrite <- !app_assoc. repeat split; reflexivity.
Qed.

Lemma play_route_queues_behind_render_witness :
  let track := mkTrack "song" "song" "https://cdn/song" "Control Panel" in
  exists w',
    Http.play Scene.directory 1 Scene.request Sample.playing
      = (Returned (Http.mkPlayResponse "Track queued." 1 2 (Http._track_payload track)), w')
    /\ queue (state_of w' 1) = [Sample.track_b; track]
    /\ now_playing (state_of w' 1) = Some Sample.track_a
    /\ guilds w' = guilds Sample.playing /\ tasks w' = tasks Sample.playing
    /\ handoff w' = handoff Sample.playing
    /\ trace w' = (trace Sample.playing ++ [Acquire 1; QueueAppend 1 track; Release 1])%list.
Proof.
  exact (play_route_queues_behind_render Scene.directory 1 Scene.request Sample.playing
           (mkGuild (Voice Sample.vc_playing)) Sample.vc_playing
           (mkTrack "song" "song" "https://cdn/song" "Control Panel")
           eq_refl eq_refl eq_refl eq_refl eq_refl eq_refl).
Defined.

(** X15.  The same for [/play] by a member who sits in the bot's voice
    channel: while a render is playing or paused the extracted track goes to
    the back of the queue, the caller is told "Added to queue: ...", and
    nothing else changes. *)
Theorem play_command_queues_behind_render (w : World) (i : Bot.Interaction)
    (query : string) (guild_id channel_id voice_channel : Z) (name : string)
    (g : Guild) (vc : VoiceClient) (track : Track) :
  Bot.i_guild i = Some guild_id ->
  Bot.i_channel i = Some channel_id ->
  Bot.i_user i = Bot.Member name (Some voice_channel) ->
  guilds w !! guild_id = Some g ->
  voice_client g = Voice vc ->
  vc_connected vc = true ->
  vc_channel vc = Some voice_channel ->
  (is_playing vc || is_paused vc)%bool = true ->
  extract_track (ydl (env w) query) query name = Returned track ->
  exists w',
    Bot.play i query w = (Returned tt, w')
    /\ queue (state_of w' guild_id) = (queue (state_of w guild_id) ++ [track])%list
    /\ now_playing (state_of w' guild_id) = now_playing (state_of w guild_id)
    /\ guilds w' = guilds w /\ tasks w' = tasks w /\ handoff w' = handoff w
    /\ trace w' =
         (trace w ++ [Defer; Acquire guild_id; QueueAppend guild_id track;
                      Release guild_id;
                      Followup ("Added to queue: **" ++ title track ++ "**"
                                  ++ PyStr.nl ++ webpage_url track)])%list.
Proof.
  intros Hi Hch Hu Hg Hv Hc Hvch Hact Hex.
  unfold Bot.play, Bot.ensure_voice, Bot.ensure_member, Bot.followup.
  rewrite Hi, Hch.
  py_unfold. unfold guild_voice. cbn. rewrite get_state_eq. cbn.
  repeat (progress (rewrite ?Hi, ?Hu, ?Hg, ?Hv, ?Hc, ?Hvch, ?Z.eqb_refl, ?Hex; cbn)).
  norm_state.
  assert (negb (is_playing vc) && negb (is_paused vc) = false)%bool as Hn
    by (destruct (is_playing vc), (is_paused vc); cbn in *; congruence).
  rewrite Hn. cbn.
  eexists. split; [reflexivity|].
  cbn. norm_state. rewrite <- !app_assoc. repeat split; reflexivity.
Qed.

Lemma play_command_queues_behind_render_witness :
  let track := mkTrack "song" "song" "https://cdn/song" "alice" in
  exists w',
    Bot.play Sample.caller "song" Sample.playing = (Returned tt, w')
    /\ queue (state_of w' 1) = [Sample.track_b; track]
    /\ now_playing (state_of w' 1) = Some Sample.track_a
    /\ guilds w' = guilds Sample.playing /\ tasks w' = tasks Sample.playing
    /\ handoff w' = handoff Sample.playing
    /\ trace w' =
         (trace Sample.playing ++
            [Defer; Acquire 1; QueueAppend 1 track; Release 1;
             Followup ("Added to queue: **" ++ title track ++ "**"
                         ++ PyStr.nl ++ webpage_url track)])%list.
Proof.
  exact (play_command_queues_behind_render Sample.playing Sample.caller "song" 1 9 5
           "alice" (mkGuild (Voice Sample.vc_playing)) Sample.vc_playing
           (mkTrack "song" "song" "https://cdn/song" "alice")
           eq_refl eq_refl eq_refl eq_refl eq_refl eq_refl eq_refl eq_refl eq_refl).
Defined.

(** X16.  When the bot is connected, [_ensure_voice_connection] neither moves
    nor reconnects, and changes nothing, if the request names no voice
    channel, names channel id 0, names the channel the bot is in, or the
    voice client has no channel. *)
Theorem voice_connection_is_reused (d : Http.Directory) (guild_id : Z)
    (voice_channel_id : option Z) (w : World) (vc : VoiceClient) :
  guild_voice w guild_id = Voice vc ->
  vc_connected vc = true ->
  (voice_channel_id = None \/ voice_channel_id = Some 0
   \/ voice_channel_id = vc_channel vc \/ vc_channel vc = None) ->
  Http._ensure_voice_connection d guild_id voice_channel_id w = (Returned tt, w).
Proof.
  intros Hgv Hc Hcase.
  unfold Http._ensure_voice_connection, Api._connected_voice_client.
  py_unfold. cbn. rewrite Hgv, Hc. cbn.
  destruct Hcase as [->|[->|[->|Hn]]].
  - reflexivity.
  - destruct (vc_channel vc); reflexivity.
  - destruct (vc_channel vc) as [c|]; [|reflexivity].
    rewrite Z.eqb_refl, andb_false_r. reflexivity.
  - rewrite Hn. destruct voice_channel_id; reflexivity.
Qed.

Lemma voice_connection_is_reused_witness :
  Http._ensure_voice_connection Scene.directory 1 (Some 5) Sample.playing
  = (Returned tt, Sample.playing).
Proof.
  apply (voice_connection_is_reused Scene.directory 1 (Some 5) Sample.playing
           Sample.vc_playing); [reflexivity|reflexivity|].
  right. right. left. reflexivity.
Defined.

(** X17.  When the request needs another channel (the bot is not connected,
    or sits in a different one than the nonzero one asked for),
    [_ensure_voice_connection] looks the channel up in the guild and, failing
    that, fetches it, and checks what it found either way: a channel that is
    no voice or stage channel is refused with 400 "voice_channel_id must
    reference a voice or stage channel.", a voice or stage channel of another
    guild with 400 "voice_channel_id does not belong to this guild.", and a
    fetch that fails with a [DiscordException] with 404 "Voice channel <id>
    was not found.".  In each case the world is unchanged: the bot neither
    connects nor moves. *)
Theorem foreign_channel_is_refused (d : Http.Directory) (guild_id wanted : Z)
    (w : World) :
  (forall vc, guild_voice w guild_id = Voice vc -> vc_connected vc = true ->
     wanted <> 0 /\ exists current, vc_channel vc = Some current /\ current <> wanted) ->
  let refused (status : Z) (detail : string) :=
    Http._ensure_voice_connection d guild_id (Some wanted) w
    = (Raised (HTTPException status detail), w) in
  (forall c,
     Http.guild_channel d guild_id wanted = Some c
     \/ (Http.guild_channel d guild_id wanted = None
         /\ Http.fetched_channel d wanted = Returned c) ->
     (Http.ch_kind c = Http.OtherChannel ->
      refused 400 "voice_channel_id must reference a voice or stage channel.")
     /\ (Http.ch_kind c <> Http.OtherChannel -> Http.ch_guild c <> guild_id ->
         refused 400 "voice_channel_id does not belong to this guild."))
  /\ (forall e,
        Http.guild_channel d guild_id wanted = None ->
        Http.fetched_channel d wanted = Raised e ->
        is_discord_exception e = true ->
        refused 404 ("Voice channel " ++ PyStr.of_int wanted ++ " was not found.")).
Proof.
  intros Helse. cbn zeta.
  assert (forall (r : Outcome Http.Channel) (e : PyExn),
            (Http._load_voice_channel d guild_id wanted w = (Raised e, w)) ->
            Http._ensure_voice_connection d guild_id (Some wanted) w = (Raised e, w))
    as Hload.
  { intros r e Hl.
    unfold Http._ensure_voice_connection, Api._connected_voice_client.
    py_unfold. cbn.
    destruct (guild_voice w guild_id) as [| |vc] eqn:Hgv; cbn; rewrite ?Hl; try reflexivity.
    destruct (vc_connected vc) eqn:Hc; cbn; rewrite ?Hl; try reflexivity.
    destruct (Helse vc eq_refl Hc) as (Hw & current & Hch & Hne).
    rewrite Hch.
    assert ((wanted =? 0) = false) as -> by lia.
    assert ((current =? wanted) = false) as -> by lia.
    cbn. rewrite Hl. reflexivity. }
  split.
  - intros c Hfound. split.
    + intros Hkind. apply (Hload (Returned c)).
      unfold Http._load_voice_channel. py_unfold.
      destruct Hfound as [Hgc|[Hgc Hfc]]; rewrite Hgc; cbn; rewrite ?Hfc; cbn;
        rewrite Hkind; reflexivity.
    + intros Hkind Hguild. apply (Hload (Returned c)).
      assert ((Http.ch_guild c =? guild_id) = false) as Hb by lia.
      unfold Http._load_voice_channel. py_unfold.
      destruct Hfound as [Hgc|[Hgc Hfc]]; rewrite Hgc; cbn; rewrite ?Hfc; cbn;
        destruct (Http.ch_kind c); try congruence; rewrite Hb; reflexivity.
  - intros e Hgc Hfc He. apply (Hload (Raised e)).
    unfold Http._load_voice_channel. py_unfold. rewrite Hgc. cbn. rewrite Hfc, He.
    reflexivity.
Qed.

Lemma foreign_channel_is_refused_witness :
  Http.guild_channel Scene.directory 1 7 = None
  /\ Http._ensure_voice_connection Scene.directory 1 (Some 7) Scene.unconnected
     = (Raised (HTTPException 400 "voice_channel_id does not belong to this guild."),
        Scene.unconnected).
Proof.
  split; [reflexivity|].
  refine (proj2 (proj1 (foreign_channel_is_refused Scene.directory 1 7 Scene.unconnected _)
                   (Http.mkChannel Http.VoiceChannel 2) _) _ _).
  - intros vc H. vm_compute in H. discriminate H.
  - right. split; reflexivity.
  - discriminate.
  - cbn. lia.
Defined.



(** X19.  When the connected bot sits in another channel than the nonzero one
    the request names, and that is a voice or stage channel of the guild,
    [_ensure_voice_connection] moves the voice client there: afterwards it is
    in the named channel with the same player, so a render goes on, and
    nothing else has changed.  If the move raises a [DiscordException] the
    route raises 400 "Failed to move to voice channel <id>."; any other
    exception passes through; in both cases the world is unchanged. *)
Theorem voice_connection_moves (d : Http.Directory) (guild_id wanted current : Z)
    (w : World) (vc : VoiceClient) (c : Http.Channel) :
  guild_voice w guild_id = Voice vc ->
  vc_connected vc = true ->
  vc_channel vc = Some current ->
  wanted <> 0 ->
  current <> wanted ->
  Http.guild_channel d guild_id wanted = Some c ->
  Http.ch_kind c <> Http.OtherChannel ->
  Http.ch_guild c = guild_id ->
  match Http.move_error d guild_id wanted with
  | None =>
      exists w',
        Http._ensure_voice_connection d guild_id (Some wanted) w = (Returned tt, w')
        /\ guild_voice w' guild_id = Voice (mkVoice true (Some wanted) (vc_player vc))
        /\ (forall g, g <> guild_id -> guild_voice w' g = guild_voice w g)
        /\ states w' = states w /\ tasks w' = tasks w /\ handoff w' = handoff w
        /\ trace w' = trace w
  | Some e =>
      Http._ensure_voice_connection d guild_id (Some wanted) w
      = (Raised (if is_discord_exception e
                 then HTTPException 400
                        ("Failed to move to voice channel " ++ PyStr.of_int wanted ++ ".")
                 else e), w)
  end.
Proof.
  intros Hgv Hc Hch Hw Hne Hgc Hkind Hcg.
  destruct (guild_voice_inv w guild_id vc Hgv) as (g & Hg & Hv).
  assert ((wanted =? 0) = false) as Hw0 by lia.
  assert ((current =? wanted) = false) as Hcw by lia.
  unfold Http._ensure_voice_connection, Api._connected_voice_client,
    Http._load_voice_channel, Http.vc_move_to, update_voice, try_except.
  py_unfold. cbn.
  repeat (progress (rewrite ?Hgv, ?Hc, ?Hch, ?Hw0, ?Hcw, ?Hgc, ?Hcg, ?Z.eqb_refl; cbn)).
  destruct (Http.ch_kind c) eqn:Hk; [| |congruence].
  all: cbn; rewrite ?Z.eqb_refl; cbn.
  all: destruct (Http.move_error d guild_id wanted) as [e|]; cbn.
  all: try (destruct (is_discord_exception e); reflexivity).
  all: eexists; split; [reflexivity|].
  all: unfold guild_voice; cbn.
  all: split; [rewrite lookup_alter_eq, Hg; cbn; rewrite Hv; cbn; rewrite Hc; reflexivity|].
  all: split; [intros g' Hg'; rewrite lookup_alter_ne by congruence; reflexivity|].
  all: repeat split; reflexivity.
Qed.

Lemma voice_connection_moves_witness :
  exists w',
    Http._ensure_voice_connection Scene.directory 1 (Some 6) Sample.playing
      = (Returned tt, w')
    /\ guild_voice w' 1 = Voice (mkVoice true (Some 6) (Some (Sample.player false)))
    /\ (forall g, g <> 1 -> guild_voice w' g = guild_voice Sample.playing g)
    /\ states w' = states Sample.playing /\ tasks w' = tasks Sample.playing
    /\ handoff w' = handoff Sample.playing
    /\ trace w' = trace Sample.playing.
Proof.
  exact (voice_connection_moves Scene.directory 1 6 5 Sample.playing Sample.vc_playing
           (Http.mkChannel Http.StageChannel 1)
           eq_refl eq_refl eq_refl ltac:(lia) ltac:(lia) eq_refl ltac:(discriminate) eq_refl).
Defined.



(** ** Settings and the API key *)

(** X21.  With the settings loaded from the environment, a request passes the
    API-key check exactly when [CONTROL_API_TOKEN] is unset, or is empty, or
    equals the [X-API-Key] header: an empty token switches the check off, and
    with a token set a missing header is refused. *)
Theorem api_key_check_follows_environment (py_int : string -> option Z)
    (environ : gmap string string) (s : Config.Settings) (header : option string) :
  Config.load_settings py_int environ = Returned s ->
  Http.require_api_key (Config.api_token s) header = Returned tt
  <-> (environ !! "CONTROL_API_TOKEN" = None
       \/ environ !! "CONTROL_API_TOKEN" = Some ""
       \/ header = environ !! "CONTROL_API_TOKEN").
Proof.
  unfold Config.load_settings, Http.require_api_key.
  destruct (Config.get_truthy environ "DISCORD_TOKEN") as [tok|]; [|discriminate].
  intros Hload.
  assert (Config.api_token s =
          match environ !! "CONTROL_API_TOKEN" with
          | Some v => if String.eqb v "" then None else Some v
          | None => None
          end) as ->.
  { destruct (Config.get_truthy environ "DISCORD_GUILD_ID") as [raw|];
      [destruct (py_int raw); [|discriminate]|];
      destruct (py_int (default "8000" (environ !! "CONTROL_API_PORT")));
      try discriminate; injection Hload as <-; reflexivity. }
  destruct (environ !! "CONTROL_API_TOKEN") as [v|]; [|tauto].
  destruct (String.eqb v "") eqn:Hv.
  - apply String.eqb_eq in Hv. subst. tauto.
  - apply String.eqb_neq in Hv.
    destruct header as [key|].
    + destruct (String.eqb key v) eqn:Hk.
      * apply String.eqb_eq in Hk. subst. tauto.
      * apply String.eqb_neq in Hk. split; [discriminate|].
        intros [H|[H|H]]; try discriminate; congruence.
    + split; [discriminate|]. intros [H|[H|H]]; try discriminate; congruence.
Qed.

Lemma api_key_check_follows_environment_witness :
  Http.require_api_key (Some "secret") (Some "secret") = Returned tt
  <-> (Scene.environ !! "CONTROL_API_TOKEN" = None
       \/ Scene.environ !! "CONTROL_API_TOKEN" = Some ""
       \/ Some "secret" = Scene.environ !! "CONTROL_API_TOKEN").
Proof.
  exact (api_key_check_follows_environment Scene.py_int Scene.environ
           (Config.mkSettings "token" None "0.0.0.0" 8000 (Some "secret"))
           (Some "secret") ltac:(vm_compute; reflexivity)).
Defined.

(** X22.  The two [load_settings] agree on what they share: when both return,
    the token (never empty) and the guild id are the same; when the bot's
    loader raises, the backend's raises the same error; and the only way the
    backend's can fail where the bot's succeeds is a [CONTROL_API_PORT] that
    is not an integer. *)
Theorem settings_loaders_agree (py_int : string -> option Z)
    (environ : gmap string string) :
  match Config.load_bot_settings py_int environ, Config.load_settings py_int environ with
  | Returned b, Returned s =>
      Config.token s = Config.bs_token b /\ Config.guild_id s = Config.bs_guild_id b
      /\ Config.bs_token b <> ""
  | Raised e, Raised e' => e' = e
  | Returned _, Raised e => e = RuntimeError "CONTROL_API_PORT must be an integer."
  | Raised _, Returned _ => False
  end.
Proof.
  unfold Config.load_bot_settings, Config.load_settings, Config.get_truthy.
  destruct (environ !! "DISCORD_TOKEN") as [tok|]; [|reflexivity].
  destruct (PyStr.truthy tok) eqn:Ht; [|reflexivity].
  apply truthy_nonempty in Ht.
  destruct (environ !! "DISCORD_GUILD_ID") as [raw|];
    [destruct (PyStr.truthy raw); [destruct (py_int raw); [|reflexivity]|]|];
    destruct (py_int (default "8000" (environ !! "CONTROL_API_PORT")));
    cbn; auto.
Qed.

(** X23.  Empty values in the environment: an empty [DISCORD_GUILD_ID] counts
    as unset (no guild id, no error), while an empty [CONTROL_API_PORT] is not
    replaced by the default 8000 but rejected; the defaults of host and port
    apply when the variables are unset. *)
Theorem empty_settings_values (py_int : string -> option Z)
    (environ : gmap string string) (tok : string) :
  py_int "" = None ->
  environ !! "DISCORD_TOKEN" = Some tok -> tok <> "" ->
  environ !! "DISCORD_GUILD_ID" = Some "" ->
  Config.load_bot_settings py_int environ = Returned (Config.mkBotSettings tok None)
  /\ (environ !! "CONTROL_API_PORT" = Some "" ->
      Config.load_settings py_int environ
      = Raised (RuntimeError "CONTROL_API_PORT must be an integer."))
  /\ (forall port, environ !! "CONTROL_API_PORT" = None -> py_int "8000" = Some port ->
      exists s, Config.load_settings py_int environ = Returned s
                /\ Config.guild_id s = None /\ Config.api_port s = port
                /\ Config.api_host s = default "0.0.0.0" (environ !! "CONTROL_API_HOST")).
Proof.
  intros Hint Htok Hne Hgid.
  unfold Config.load_bot_settings, Config.load_settings, Config.get_truthy.
  rewrite Htok, Hgid. apply truthy_nonempty in Hne. rewrite Hne. cbn.
  split; [reflexivity|]. split.
  - intros ->. cbn. rewrite Hint. reflexivity.
  - intros port -> Hp. cbn. rewrite Hp. eexists. repeat split; reflexivity.
Qed.

Lemma empty_settings_values_witness :
  Config.load_bot_settings Scene.py_int Scene.environ
  = Returned (Config.mkBotSettings "token" None)
  /\ exists s, Config.load_settings Scene.py_int Scene.environ = Returned s
               /\ Config.guild_id s = None /\ Config.api_port s = 8000
               /\ Config.api_host s
                  = default "0.0.0.0" (Scene.environ !! "CONTROL_API_HOST").
Proof.
  destruct (empty_settings_values Scene.py_int Scene.environ "token"
              eq_refl ltac:(vm_compute; reflexivity) ltac:(discriminate)
              ltac:(vm_compute; reflexivity)) as (Hbot & _ & Hback).
  split; [exact Hbot|].
  exact (Hback 8000 ltac:(vm_compute; reflexivity) eq_refl).
Defined.

(** X24.  [/volume] refuses a percent outside [0..200] with "Volume must be
    between 0 and 200." and changes nothing; inside the range it stores
    exactly the percent asked for (the clamp of [set_volume_percent] never
    bites here), leaves queue and now-playing slot alone, and tells the
    caller "Applied to the currently playing track." when the voice client
    holds a source, also that of a render that has ended, and "Will apply
    from the next track." when it holds none. *)
Theorem volume_command_checks_range (w : World) (i : Bot.Interaction)
    (guild_id percent : Z) :
  Bot.i_guild i = Some guild_id ->
  (percent < 0 \/ 200 < percent ->
   Slash.volume_cmd i percent w =
   (Returned tt,
    with_trace
      (fun t => ((t ++ [Defer]) ++ [Followup "Volume must be between 0 and 200."])%list) w))
  /\ (0 <= percent <= 200 ->
      exists w',
        Slash.volume_cmd i percent w = (Returned tt, w')
        /\ volume (state_of w' guild_id) = int_true_div percent 100
        /\ queue (state_of w' guild_id) = queue (state_of w guild_id)
        /\ now_playing (state_of w' guild_id) = now_playing (state_of w guild_id)
        /\ trace w' =
             (trace w ++
                [Defer; VolumeSet guild_id (int_true_div percent 100);
                 Followup ("Volume set to **" ++ PyStr.of_int percent ++ "%**. "
                             ++ if has_source w guild_id
                                then "Applied to the currently playing track."
                                else "Will apply from the next track.")])%list).
Proof.
  intros Hi. unfold Slash.volume_cmd, Bot.followup. rewrite Hi. split.
  - intros Hout. py_unfold. cbn.
    assert (((percent <? 0) || (200 <? percent))%bool = true) as ->; [|reflexivity].
    apply orb_true_iff. destruct Hout; [left|right]; apply Z.ltb_lt; assumption.
  - intros Hin.
    assert (((percent <? 0) || (200 <? percent))%bool = false) as Hb.
    { apply orb_false_iff. split; apply Z.ltb_ge; lia. }
    assert (Z.max 0 (Z.min 200 percent) = percent) as Hcl by lia.
    unfold set_volume_percent, apply_volume_to_active, update_voice, has_source,
      holds_finished, guild_voice.
    py_unfold. cbn. rewrite Hb. cbn. rewrite get_state_eq. cbn. rewrite Hcl.
    destruct (guilds w !! guild_id) as [g|] eqn:Hg; cbn;
      [destruct (voice_client g) as [| |vc] eqn:Hv; cbn;
       [| |destruct (vc_player vc) as [p|] eqn:Hp; cbn;
           [rewrite get_state_eq; cbn
           |destruct (existsb (Z.eqb guild_id) (finished w)) eqn:Hk; cbn;
            [rewrite get_state_eq; cbn|]]]|];
      (eexists; split; [reflexivity|]); cbn; norm_state;
      rewrite <- ?app_assoc; repeat split; reflexivity.
Qed.

Lemma volume_command_checks_range_witness :
  Slash.volume_cmd Sample.caller 250 Sample.playing =
  (Returned tt,
   with_trace
     (fun t => ((t ++ [Defer]) ++ [Followup "Volume must be between 0 and 200."])%list)
     Sample.playing)
  /\ exists w',
       Slash.volume_cmd Sample.caller 50 Sample.playing = (Returned tt, w')
       /\ volume (state_of w' 1) = int_true_div 50 100.
Proof.
  destruct (volume_command_checks_range Sample.playing Sample.caller 1 250 eq_refl)
    as (Hout & _).
  destruct (volume_command_checks_range Sample.playing Sample.caller 1 50 eq_refl)
    as (_ & Hin).
  split; [apply Hout; lia|].
  destruct (Hin ltac:(lia)) as (w' & Hrun & Hvol & _).
  exists w'. split; assumption.
Defined.

(** ** Leave, join and the listing *)


(** X25.  [/leave] in a guild always leaves the session's queue empty and its
    now-playing slot absent, connected or not.  If the voice client was
    connected, its player is stopped, the guild has no voice client
    afterwards and the reply is "Disconnected."; otherwise no voice client
    changes and the reply is "I'm not connected.".  A [play_next] task that
    runs afterwards finds nothing to play and leaves the session cleared. *)
Theorem leave_clears_and_disconnects (w : World) (i : Bot.Interaction) (guild_id : Z)
    (text_channel_id : option Z) :
  Bot.i_guild i = Some guild_id ->
  exists w',
    Slash.leave i w = (Returned tt, w')
    /\ queue (state_of w' guild_id) = []
    /\ now_playing (state_of w' guild_id) = None
    /\ (if connected w guild_id
        then guild_voice w' guild_id = NoVoice
             /\ exists evs,
                  trace w' =
                    (trace w ++ Defer :: Acquire guild_id :: QueueClear guild_id
                       :: NowPlayingSet guild_id None :: Release guild_id
                       :: VcStop guild_id :: evs ++ [Followup "Disconnected."])%list
        else guilds w' = guilds w
             /\ trace w' =
                  (trace w ++ [Defer; Acquire guild_id; QueueClear guild_id;
                               NowPlayingSet guild_id None; Release guild_id;
                               Followup "I'm not connected."])%list)
    /\ (let late := snd (run_task (PlayNextTask guild_id text_channel_id) w') in
        queue (state_of late guild_id) = []
        /\ now_playing (state_of late guild_id) = None).
Proof.
  intros Hi.
  enough (exists w',
    Slash.leave i w = (Returned tt, w')
    /\ queue (state_of w' guild_id) = []
    /\ now_playing (state_of w' guild_id) = None
    /\ (if connected w guild_id
        then guild_voice w' guild_id = NoVoice
             /\ exists evs,
                  trace w' =
                    (trace w ++ Defer :: Acquire guild_id :: QueueClear guild_id
                       :: NowPlayingSet guild_id None :: Release guild_id
                       :: VcStop guild_id :: evs ++ [Followup "Disconnected."])%list
        else guilds w' = guilds w
             /\ trace w' =
                  (trace w ++ [Defer; Acquire guild_id; QueueClear guild_id;
                               NowPlayingSet guild_id None; Release guild_id;
                               Followup "I'm not connected."])%list))
    as (w' & Hrun & Hq & Hn & Hcase).
  { exists w'. do 4 (split; [assumption|]). cbn zeta.
    rewrite run_task_play_next. cbn. apply play_next_keeps_cleared; assumption. }
  unfold Slash.leave, Bot.connected_voice, Bot.interaction_voice, Bot.followup,
    vc_disconnect, vc_stop, call_after, after_play, call_soon_threadsafe, the_player,
    connected, update_voice.
  rewrite Hi. py_unfold. cbn. rewrite get_state_eq. cbn. unfold guild_voice. cbn.
  destruct (guilds w !! guild_id) as [g|] eqn:Hg; cbn;
    [destruct (voice_client g) as [| |vc] eqn:Hv; cbn;
     [| |destruct (vc_connected vc) eqn:Hc; cbn;
         [rewrite ?Hg; cbn; rewrite ?Hv; cbn;
          destruct (vc_player vc) as [p|] eqn:Hp; cbn;
          [destruct (loop_running w) eqn:Hl; cbn|]|]]|];
    (eexists; split; [reflexivity|]); cbn; norm_state;
    rewrite ?lookup_insert_eq; cbn;
    rewrite <- ?app_assoc; cbn;
    repeat split; try reflexivity;
    first [ exists []; reflexivity | eexists [_]; reflexivity ].
Qed.

Lemma leave_clears_and_disconnects_witness :
  exists w',
    Slash.leave Sample.caller Sample.playing = (Returned tt, w')
    /\ queue (state_of w' 1) = []
    /\ now_playing (state_of w' 1) = None
    /\ guild_voice w' 1 = NoVoice.
Proof.
  destruct (leave_clears_and_disconnects Sample.playing Sample.caller 1 (Some 9) eq_refl)
    as (w' & Hrun & Hq & Hn & Hcase & _).
  exists w'. repeat split; try assumption. exact (proj1 Hcase).
Defined.

(** X26.  A member who sits in another voice channel than the connected bot
    cannot pull it over: [ensure_voice] raises "I'm already in **name**. Join
    that channel first." and changes nothing, and [/join] replies with those
    words. *)
Theorem ensure_voice_never_moves (w : World) (i : Bot.Interaction)
    (guild_id user_channel current : Z) (name : string) (vc : VoiceClient) :
  Bot.i_guild i = Some guild_id ->
  Bot.i_user i = Bot.Member name (Some user_channel) ->
  guild_voice w guild_id = Voice vc ->
  vc_connected vc = true ->
  vc_channel vc = Some current ->
  current <> user_channel ->
  let reply := "I'm already in **" ++ channel_name (env w) current
                 ++ "**. Join that channel first." in
  Bot.ensure_voice i w = (Raised (RuntimeError reply), w)
  /\ Slash.join i w =
     (Returned tt, with_trace (fun t => ((t ++ [Defer]) ++ [Followup reply])%list) w).
Proof.
  intros Hi Hu Hgv Hc Hch Hne. cbn zeta.
  assert ((current =? user_channel) = false) as Hz by (apply Z.eqb_neq; exact Hne).
  unfold Slash.join, Bot.ensure_voice, Bot.ensure_member, Bot.safe_interaction_reply,
    Bot.followup.
  rewrite Hi, Hu. py_unfold. cbn.
  change (guild_voice (with_trace (fun t => (t ++ [Defer])%list) w) guild_id)
    with (guild_voice w guild_id).
  rewrite Hgv. cbn. rewrite Hc, Hch, Hz. cbn. split; reflexivity.
Qed.

Lemma ensure_voice_never_moves_witness :
  let reply := "I'm already in **General**. Join that channel first." in
  Bot.ensure_voice Scene.caller_elsewhere Sample.playing
  = (Raised (RuntimeError reply), Sample.playing)
  /\ Slash.join Scene.caller_elsewhere Sample.playing =
     (Returned tt,
      with_trace (fun t => ((t ++ [Defer]) ++ [Followup reply])%list) Sample.playing).
Proof.
  exact (ensure_voice_never_moves Sample.playing Scene.caller_elsewhere 1 6 5 "alice"
           Sample.vc_playing eq_refl eq_refl eq_refl eq_refl eq_refl ltac:(lia)).
Defined.




(** ** What a finished render leaves behind *)

(** The notification is no business of the voice client. *)
Lemma send_now_playing_message_keeps_finished (tcid : option Z) (track : Track) (w : World) :
  finished (snd (send_now_playing_message tcid track w)) = finished w.
Proof.
  unfold send_now_playing_message. py_unfold.
  destruct tcid as [cid|]; cbn; [|reflexivity].
  destruct (get_channel (env w) cid) as [[]|]; cbn.
  all: try destruct (fetch_channel (env w) cid) as [[]|e1]; cbn.
  all: try destruct (channel_send (env w) cid) as [e2|]; cbn.
  all: try destruct (is_discord_exception e2); cbn.
  all: try destruct (is_discord_exception e1); cbn.
  all: reflexivity.
Qed.

(** [play_next] neither finds nor leaves a finished player. *)
Lemma play_next_keeps_finished (w : World) (guild_id : Z) (text_channel_id : option Z) :
  finished (snd (play_next guild_id text_channel_id w)) = finished w.
Proof.
  unfold play_next, take_next, make_source, vc_play, update_voice, _schedule_play_next,
    create_task.
  unfold mbind at 1, py_bind at 1. rewrite get_state_eq.
  py_unfold. cbn.
  repeat match goal with
         | |- context [send_now_playing_message ?T ?K ?W] =>
             let H := fresh "Hs" in
             pose proof (send_now_playing_message_keeps_finished T K W) as H;
             destruct (send_now_playing_message T K W) as [[[]|?] ?]; cbn in *
         | |- context [match ?x with _ => _ end] =>
             lazymatch x with
             | context [match _ with _ => _ end] => fail
             | context [send_now_playing_message] => fail
             | _ => destruct x eqn:?; cbn
             end
         end.
  all: try reflexivity; try assumption.
Qed.

Lemma holds_finished_filter (guild_id : Z) (l : list Z) :
  existsb (Z.eqb guild_id) (List.filter (fun g => negb (g =? guild_id)) l) = false.
Proof.
  induction l as [|g l IH]; [reflexivity|].
  cbn. destruct (g =? guild_id) eqn:E; cbn; [exact IH|].
  rewrite Z.eqb_sym, E. exact IH.
Qed.

(** X28.  Start a render as in X1 and let it come to its end, by itself or on
    an error.  No player is live afterwards, yet the voice client still holds
    the finished source, so [apply_volume_to_active] answers [True] and
    [/volume] will say "Applied to the currently playing track."; once [stop]
    has been called on the voice client the answer is [False]. *)
Theorem finished_render_keeps_its_source (w : World) (guild_id : Z)
    (text_channel_id : option Z) (vc : VoiceClient) (track : Track) (rest : list Track)
    (err : option PyExn) :
  guild_voice w guild_id = Voice vc ->
  vc_connected vc = true ->
  vc_player vc = None ->
  queue (state_of w guild_id) = track :: rest ->
  ffmpeg_error (env w) (stream_url track) = None ->
  encoder_error (env w) guild_id = None ->
  exists w',
    (play_next guild_id text_channel_id;; player_ends guild_id err) w = (Returned tt, w')
    /\ the_player w' guild_id = None
    /\ has_source w' guild_id = true
    /\ fst (apply_volume_to_active guild_id w') = Returned true
    /\ fst ((vc_stop guild_id;; apply_volume_to_active guild_id) w') = Returned false.
Proof.
  intros Hgv Hc Hp Hq Hf He.
  destruct (play_next_renders_head w guild_id text_channel_id vc track rest
              Hgv Hc Hp Hq Hf He) as (w1 & Hrun & _ & _ & Hgv1 & _).
  destruct (guild_voice_inv w1 guild_id _ Hgv1) as (g1 & Hg1 & Hv1).
  unfold mbind, py_bind. rewrite Hrun.
  unfold has_source, holds_finished, apply_volume_to_active, vc_stop, player_ends,
    call_after, after_play, call_soon_threadsafe, try_except, update_voice, the_player.
  py_unfold. rewrite Hgv1. unfold guild_voice. cbn.
  destruct err as [e|]; destruct (loop_running w1) eqn:Hl; cbn.
  all: repeat (progress (rewrite ?Hg1, ?Hv1, ?Hl; cbn)).
  all: eexists; split; [reflexivity|]; cbn.
  all: repeat (progress (rewrite ?get_state_eq, ?lookup_alter_eq, ?Hg1, ?Hv1, ?Z.eqb_refl,
                           ?holds_finished_filter; cbn)).
  all: repeat split; reflexivity.
Qed.

Lemma finished_render_keeps_its_source_witness :
  let w := Sample.world Sample.env Sample.vc_idle [Sample.track_a] None in
  exists w',
    (play_next 1 (Some 9);; player_ends 1 None) w = (Returned tt, w')
    /\ the_player w' 1 = None
    /\ has_source w' 1 = true
    /\ fst (apply_volume_to_active 1 w') = Returned true
    /\ fst ((vc_stop 1;; apply_volume_to_active 1) w') = Returned false.
Proof.
  exact (finished_render_keeps_its_source
           (Sample.world Sample.env Sample.vc_idle [Sample.track_a] None)
           1 (Some 9) Sample.vc_idle Sample.track_a [] None
           eq_refl eq_refl eq_refl eq_refl eq_refl eq_refl).
Defined.
